(** * Solana RPC gateway: aggregation and classification layer

    A shallow embedding of [main.py]: the JSON-RPC client [rpc_call], the
    stats aggregator [solana_stats], the transaction labeler
    [_program_label], the feed builder [recent_transactions] and the search
    classifier [search], followed by the properties the specification
    states about them.

    Modelling conventions.
    - Upstream JSON is the inductive type [json].  Numbers are integers
      (every number these handlers read is an integer count: slots, heights,
      lamports, sample totals).  An object is its list of items, in
      insertion order; [lookup] takes the first binding of a key.
    - Python exceptions are values of [exn]; a computation that may raise
      returns a [result].  An exception nobody catches leaves the handler.
    - The upstream endpoint is an oracle [net] from the payloads posted so
      far and the current payload to an HTTP outcome, so two identical
      requests may be answered differently.  Handlers run in the monad [M]
      that threads the log of posted payloads.
    - A Python [str] is a [string] whose characters are read as code points
      below 256.
    - A Python float is an IEEE-754 binary64 number, held as the exact
      rational it denotes ([Q]).  [Py.double_of_ratio] rounds a quotient of
      integers to the nearest double, ties to even, with subnormals, and
      raises [OverflowError] beyond the largest double; [Py.truediv] and
      [Py.round] are built on it.  Two floats are equal when their
      rationals are ([==]); the sign of a zero is not represented.
    - The bounds the framework checks before a handler runs ([min_length=2]
      on [q], [1 <= limit <= 20]) are hypotheses of the statements that
      need them. *)

From Stdlib Require Import ZArith QArith Qround Qpower List String Ascii Bool Lia Lqa Arith.
From Stdlib Require Import DecimalString.
Import ListNotations.
Local Open Scope string_scope.
Local Open Scope Z_scope.

(** ** JSON values and Python exceptions *)

Local Unset Elimination Schemes.
Inductive json : Type :=
| JNull
| JBool (b : bool)
| JInt (z : Z)
| JStr (s : string)
| JArr (l : list json)
| JObj (kv : list (string * json)).
Local Set Elimination Schemes.

(** The [detail] of an [HTTPException].  The three constructors stand for
    the strings [f"RPC request error: {str(e)}"], [f"RPC error: {err}"] and
    ["Not found or invalid query"]. *)
Inductive detail : Type :=
| RpcRequestError (cause : string)
| RpcError (err : json)
| NotFoundOrInvalid.

Inductive exn : Type :=
| HTTPException (status_code : Z) (d : detail)
| AttributeError
| TypeError
| KeyError
| IndexError
| ValueError
| ZeroDivisionError
| OverflowError
| JSONDecodeError.

Inductive result (A : Type) : Type :=
| Ok (a : A)
| Raise (e : exn).
Arguments Ok {A} a.
Arguments Raise {A} e.

Definition rbind {A B} (r : result A) (k : A -> result B) : result B :=
  match r with
  | Ok a => k a
  | Raise e => Raise e
  end.

Declare Scope result_scope.
Delimit Scope result_scope with res.
Notation "x <- r ;; k" := (rbind r (fun x => k))
  (at level 61, r at next level, right associativity) : result_scope.

(** ** Python primitives on JSON values *)

Module Py.

Fixpoint lookup (key : string) (kv : list (string * json)) : option json :=
  match kv with
  | [] => None
  | (k, v) :: rest => if String.eqb k key then Some v else lookup key rest
  end.

(** [bool(v)] *)
Definition truthy (v : json) : bool :=
  match v with
  | JNull => false
  | JBool b => b
  | JInt z => negb (z =? 0)
  | JStr s => negb (String.eqb s "")
  | JArr l => match l with [] => false | _ => true end
  | JObj kv => match kv with [] => false | _ => true end
  end.

(** [a or b], both operands already evaluated *)
Definition or_ (a b : json) : json := if truthy a then a else b.

(** [o.get(key, default)]; only a dict has the method *)
Definition get (o : json) (key : string) (default : json) : result json :=
  match o with
  | JObj kv => Ok (match lookup key kv with Some v => v | None => default end)
  | _ => Raise AttributeError
  end.

(** [o[key]] for a string key *)
Definition getitem (o : json) (key : string) : result json :=
  match o with
  | JObj kv => match lookup key kv with Some v => Ok v | None => Raise KeyError end
  | _ => Raise TypeError
  end.

(** [o[0]] *)
Definition index0 (o : json) : result json :=
  match o with
  | JArr (x :: _) => Ok x
  | JArr [] => Raise IndexError
  | JStr (String c _) => Ok (JStr (String c EmptyString))
  | JStr EmptyString => Raise IndexError
  | JObj _ => Raise KeyError
  | _ => Raise TypeError
  end.

Definition chars (s : string) : list json :=
  map (fun c => JStr (String c EmptyString)) (list_ascii_of_string s).

(** [len(o)] *)
Definition len (o : json) : result nat :=
  match o with
  | JArr l => Ok (List.length l)
  | JStr s => Ok (String.length s)
  | JObj kv => Ok (List.length kv)
  | _ => Raise TypeError
  end.

(** the elements [for x in o] visits *)
Definition iter (o : json) : result (list json) :=
  match o with
  | JArr l => Ok l
  | JStr s => Ok (chars s)
  | JObj kv => Ok (map (fun p => JStr (fst p)) kv)
  | _ => Raise TypeError
  end.

Definition is_str (key : string) (v : json) : bool :=
  match v with
  | JStr s => String.eqb s key
  | _ => false
  end.

Definition substring_of (needle s : string) : bool :=
  match String.index 0 needle s with
  | Some _ => true
  | None => false
  end.

(** [key in o] for a string key *)
Definition contains (key : string) (o : json) : result bool :=
  match o with
  | JObj kv => Ok (match lookup key kv with Some _ => true | None => false end)
  | JArr l => Ok (existsb (is_str key) l)
  | JStr s => Ok (substring_of key s)
  | _ => Raise TypeError
  end.

(** the integer a value counts as in arithmetic ([bool] is an [int]) *)
Definition as_int (v : json) : result Z :=
  match v with
  | JInt z => Ok z
  | JBool b => Ok (if b then 1 else 0)
  | _ => Raise TypeError
  end.

(** *** Binary64 arithmetic *)

(** [round_half_even x]: the integer nearest to [x], the even one of the
    two when [x] lies half way. *)
Definition round_half_even (x : Q) : Z :=
  let n := Qnum x in
  let d := Zpos (Qden x) in
  let fl := n / d in
  match (2 * (n mod d)) ?= d with
  | Lt => fl
  | Gt => fl + 1
  | Eq => if Z.even fl then fl else fl + 1
  end.

(** [floor(log2 q)] of a positive rational *)
Definition ilog2 (q : Q) : Z :=
  let e := Z.log2 (Qnum q) - Z.log2 (Zpos (Qden q)) in
  if Qle_bool (2 ^ e) q then e else e - 1.

(** The exponent of the unit in the last place of the doubles around a
    positive [q]: 53 significant bits, and no exponent below that of the
    subnormals. *)
Definition ulp_exponent (q : Q) : Z := Z.max (ilog2 q - 52) (-1074).

(** The multiple of the unit in the last place nearest to a positive [q],
    ties to even. *)
Definition nearest (q : Q) : Q :=
  let u := (2 ^ ulp_exponent q)%Q in
  (inject_Z (round_half_even (q / u)) * u)%Q.

Definition magnitude (a b : Z) : Q := Z.abs a # Z.to_pos (Z.abs b).

(** The double nearest to [a / b] for a non-zero [b], as the correctly
    rounded [int / int] and the decimal-to-double conversion compute it;
    a result of magnitude [2 ** 1024] or more does not exist. *)
Definition double_of_ratio (a b : Z) : result Q :=
  if a =? 0 then Ok 0%Q
  else
    let x := nearest (magnitude a b) in
    if Qle_bool (2 ^ 1024) x then Raise OverflowError
    else Ok (if Bool.eqb (a <? 0) (b <? 0) then x else (- x)%Q).

(** [a / b] on integers: true division *)
Definition truediv (a b : Z) : result Q :=
  if b =? 0 then Raise ZeroDivisionError else double_of_ratio a b.

(** [a - b] *)
Definition sub (a b : json) : result Z :=
  (x <- as_int a ;; y <- as_int b ;; Ok (x - y))%res.

(** [a / b] with [b] an integer literal *)
Definition truediv_by (a : json) (b : Z) : result Q :=
  (x <- as_int a ;; truediv x b)%res.

(** [sum(f(s) for s in l)], starting from 0 *)
Fixpoint sum (f : json -> result json) (l : list json) (acc : Z) : result Z :=
  match l with
  | [] => Ok acc
  | s :: rest => (v <- f s ;; x <- as_int v ;; sum f rest (acc + x))%res
  end.

(** [round(x, ndigits)] on a float, for [ndigits >= 0]: the exact value
    of the double is rounded to [ndigits] decimals, ties to even, and the
    decimal is converted to the nearest double. *)
Definition round (x : Q) (ndigits : nat) : result Q :=
  double_of_ratio (round_half_even (x * inject_Z (10 ^ Z.of_nat ndigits)))
                  (10 ^ Z.of_nat ndigits).

Definition slice_list {A} (l : list A) (n : Z) : list A :=
  if n <? 0 then firstn (List.length l - Z.to_nat (- n)) l
  else firstn (Z.to_nat n) l.

(** [o[:n]]: lists and strings can be sliced *)
Definition slice_to (o : json) (n : Z) : result json :=
  match o with
  | JArr l => Ok (JArr (slice_list l n))
  | JStr s => Ok (JStr (string_of_list_ascii (slice_list (list_ascii_of_string s) n)))
  | _ => Raise TypeError
  end.

(** [v is None] *)
Definition is_none (v : json) : bool :=
  match v with
  | JNull => true
  | _ => false
  end.

(** *** Strings *)

Definition code (c : ascii) : N := N_of_ascii c.

(** the characters [str.isdecimal] accepts below code point 256 *)
Definition is_decimal_char (c : ascii) : bool :=
  ((48 <=? code c) && (code c <=? 57))%N.

(** the characters [str.isdigit] accepts below code point 256: the
    decimal digits and the superscripts two, three and one *)
Definition is_digit_char (c : ascii) : bool :=
  (is_decimal_char c || (code c =? 178) || (code c =? 179) || (code c =? 185))%N.

(** the characters [str.isspace] accepts below code point 256 *)
Definition is_space_char (c : ascii) : bool :=
  (((9 <=? code c) && (code c <=? 13)) || ((28 <=? code c) && (code c <=? 32))
   || (code c =? 133) || (code c =? 160))%N.

Fixpoint all_chars (p : ascii -> bool) (s : string) : bool :=
  match s with
  | EmptyString => true
  | String c rest => p c && all_chars p rest
  end.

Definition nonempty (s : string) : bool :=
  match s with
  | EmptyString => false
  | String _ _ => true
  end.

(** [s.isdigit()]: at least one character, and all of them digits *)
Definition isdigit (s : string) : bool := nonempty s && all_chars is_digit_char s.

Fixpoint lstrip (s : string) : string :=
  match s with
  | EmptyString => EmptyString
  | String c rest => if is_space_char c then lstrip rest else s
  end.

Fixpoint rstrip (s : string) : string :=
  match s with
  | EmptyString => EmptyString
  | String c rest =>
      match rstrip rest with
      | EmptyString => if is_space_char c then EmptyString else String c EmptyString
      | r => String c r
      end
  end.

(** [s.strip()] *)
Definition strip (s : string) : string := rstrip (lstrip s).

Fixpoint decimal_value (s : string) (acc : Z) : Z :=
  match s with
  | EmptyString => acc
  | String c rest => decimal_value rest (10 * acc + (Z.of_N (code c) - 48))
  end.

(** [sys.get_int_max_str_digits()], at its default *)
Definition int_max_str_digits : nat := 4300.

(** [int(s)] as this program calls it, on a string that passed
    [isdigit]: the decimal digits parse, a superscript digit raises, and so
    does a numeral of more digits than the interpreter converts. *)
Definition int (s : string) : result Z :=
  if nonempty s && all_chars is_decimal_char s then
    if (String.length s <=? int_max_str_digits)%nat then Ok (decimal_value s 0)
    else Raise ValueError
  else Raise ValueError.

End Py.

(** ** The upstream endpoint and the handler monad *)

(** What [requests.post] followed by [raise_for_status] and [r.json()] can
    produce: a [requests.RequestException] (connection error, timeout,
    non-2xx status), a body that is not JSON, or the decoded body. *)
Inductive http_outcome : Type :=
| RequestFailed (cause : string)
| NotJson
| Body (data : json).

(** The log of posted payloads, most recent first. *)
Definition log := list json.

Definition upstream := log -> json -> http_outcome.

Definition M (A : Type) : Type := log -> result A * log.

Definition ret {A} (a : A) : M A := fun l => (Ok a, l).

Definition raise {A} (e : exn) : M A := fun l => (Raise e, l).

Definition lift {A} (r : result A) : M A := fun l => (r, l).

Definition bind {A B} (m : M A) (k : A -> M B) : M B :=
  fun l =>
    match m l with
    | (Ok a, l') => k a l'
    | (Raise e, l') => (Raise e, l')
    end.

(** [try: m  except HTTPException: handler] *)
Definition try_except_http {A} (m : M A) (handler : M A) : M A :=
  fun l =>
    match m l with
    | (Raise (HTTPException _ _), l') => handler l'
    | other => other
    end.

Declare Scope handler_scope.
Delimit Scope handler_scope with M.
Notation "x <~ m ;; k" := (bind m (fun x => k))
  (at level 61, m at next level, right associativity) : handler_scope.

(** ** Results of the handlers *)

(** The dict [solana_stats] returns. *)
Record stats : Type := {
  tps : option Q;
  slot : json;
  validators : nat;
  recentBlocks : Z
}.

(** One entry of ["items"] in [recent_transactions]. *)
Record item : Type := {
  sig : json;
  item_slot : json;
  fee : Q;
  type_ : string
}.

(** The dict [search] returns, by its ["kind"]. *)
Inductive search_result : Type :=
| SlotResult (slot : Z) (txCount : nat)
| SignatureResult (signature : string) (slot : json) (fee : Q) (ok : bool)
| AddressResult (address : string) (balance : Q) (signatures : list json).

Definition kind (r : search_result) : string :=
  match r with
  | SlotResult _ _ => "slot"
  | SignatureResult _ _ _ _ => "signature"
  | AddressResult _ _ _ => "address"
  end.

(** ** The handlers *)

Definition system_program : string := "11111111111111111111111111111111".

(** [{"encoding": "json", "maxSupportedTransactionVersion": 0}] *)
Definition tx_options : json :=
  JObj [("encoding", JStr "json"); ("maxSupportedTransactionVersion", JInt 0)].

Definition payload (method : string) (params : option (list json)) : json :=
  JObj [("jsonrpc", JStr "2.0"); ("id", JInt 1); ("method", JStr method);
        ("params", JArr (match params with Some p => p | None => [] end))].

(** [data = r.json()] onwards in [rpc_call] *)
Definition rpc_result (data : json) : result json :=
  (has_error <- Py.contains "error" data ;;
   if has_error : bool then
     err <- Py.getitem data "error" ;;
     Raise (HTTPException 502 (RpcError err))
   else Py.get data "result" JNull)%res.

(** [_program_label], the body of the [try] *)
Definition program_label_body (tx : json) : result string :=
  (transaction <- Py.get tx "transaction" (JObj []) ;;
   message <- Py.get transaction "message" (JObj []) ;;
   instructions <- Py.get message "instructions" (JArr []) ;;
   found <- (if Py.truthy instructions then
               first <- Py.index0 instructions ;;
               a <- Py.get first "programId" JNull ;;
               prog <- (if Py.truthy a then Ok a
                        else first' <- Py.index0 instructions ;;
                             Py.get first' "programIdIndex" JNull) ;;
               Ok (match prog with JStr s => Some s | _ => None end)
             else Ok None) ;;
   match found with
   | Some prog => Ok prog
   | None =>
       meta <- Py.get tx "meta" (JObj []) ;;
       err <- Py.get meta "err" JNull ;;
       Ok (if Py.is_none err then "Success" else "Error")
   end)%res.

(** Every [exn] is an [Exception], so [except Exception] catches it. *)
Definition _program_label (tx : json) : result string :=
  match program_label_body tx with
  | Ok label => Ok label
  | Raise _ => Ok "Transaction"
  end.

(** [(tx.get("meta") or {}).get(key, default)] *)
Definition meta_field (tx : json) (key : string) (default : json) : result json :=
  (meta <- Py.get tx "meta" JNull ;;
   Py.get (Py.or_ meta (JObj [])) key default)%res.

(** The body of the loop in [recent_transactions] once [tx] is known to
    be truthy: the fee and the appended dict. *)
Definition tx_summary (signature tx : json) : result item :=
  (fee_lamports <- meta_field tx "fee" (JInt 0) ;;
   q <- Py.truediv_by fee_lamports 1000000000 ;;
   fee_sol <- Py.round q 9 ;;
   slot <- Py.get tx "slot" JNull ;;
   label <- _program_label tx ;;
   Ok {| sig := signature; item_slot := slot; fee := fee_sol; type_ := label |})%res.

(** The two lines under [if tx:] in [search]. *)
Definition signature_result (q_stripped : string) (tx : json) : result search_result :=
  (fee_lamports <- meta_field tx "fee" (JInt 0) ;;
   fee <- Py.truediv_by fee_lamports 1000000000 ;;
   slot <- Py.get tx "slot" JNull ;;
   err <- meta_field tx "err" JNull ;;
   Ok (SignatureResult q_stripped slot fee (Py.is_none err)))%res.

(** [tps] from the value bound to [samples] *)
Definition stats_tps (samples : json) : result (option Q) :=
  (if Py.truthy samples then
     l <- Py.iter samples ;;
     tx <- Py.sum (fun s => Py.get s "numTransactions" (JInt 0)) l 0 ;;
     secs <- Py.sum (fun s => Py.get s "samplePeriodSecs" (JInt 0)) l 0 ;;
     if secs =? 0 then Ok None
     else q <- Py.truediv tx secs ;; r <- Py.round q 2 ;; Ok (Some r)
   else Ok None)%res.

(** [max(0, (height2 or height1) - (height1 or 0))] *)
Definition stats_recent_blocks (height1 height2 : json) : result Z :=
  (d <- Py.sub (Py.or_ height2 height1) (Py.or_ height1 (JInt 0)) ;;
   Ok (Z.max 0 d))%res.

(** [[s.get("signature") for s in l]] *)
Fixpoint signatures_of (l : list json) : result (list json) :=
  match l with
  | [] => Ok []
  | s :: rest =>
      (x <- Py.get s "signature" JNull ;;
       xs <- signatures_of rest ;;
       Ok (x :: xs))%res
  end.

Section Handlers.

Variable net : upstream.

Definition rpc_call (method : string) (params : option (list json)) : M json :=
  fun l =>
    let p := payload method params in
    match net l p with
    | RequestFailed cause => (Raise (HTTPException 502 (RpcRequestError cause)), p :: l)
    | NotJson => (Raise JSONDecodeError, p :: l)
    | Body data => (rpc_result data, p :: l)
    end.

Definition solana_stats : M stats :=
  (slot <~ rpc_call "getSlot" None ;;
   samples0 <~ rpc_call "getRecentPerformanceSamples" (Some [JInt 30]) ;;
   let samples := Py.or_ samples0 (JArr []) in
   tps <~ lift (stats_tps samples) ;;
   vote_accounts0 <~ rpc_call "getVoteAccounts" None ;;
   let vote_accounts := Py.or_ vote_accounts0 (JObj []) in
   current <~ lift (Py.get vote_accounts "current" (JArr [])) ;;
   delinquent <~ lift (Py.get vote_accounts "delinquent" (JArr [])) ;;
   n_current <~ lift (Py.len current) ;;
   n_delinquent <~ lift (Py.len delinquent) ;;
   let validators := (n_current + n_delinquent)%nat in
   height1 <~ rpc_call "getBlockHeight" None ;;
   height2 <~ rpc_call "getBlockHeight" None ;;
   recent_blocks <~ lift (stats_recent_blocks height1 height2) ;;
   ret {| tps := tps; slot := slot; validators := validators;
          recentBlocks := recent_blocks |})%M.

(** The [for] loop of [recent_transactions]; [items] is the list built
    so far. *)
Fixpoint fetch_items (sigs : list json) (items : list item) : M (list item) :=
  match sigs with
  | [] => ret items
  | s :: rest =>
      (signature <~ lift (Py.get s "signature" JNull) ;;
       tx <~ rpc_call "getTransaction" (Some [signature; tx_options]) ;;
       if negb (Py.truthy tx) then fetch_items rest items
       else
         it <~ lift (tx_summary signature tx) ;;
         fetch_items rest (items ++ [it]))%M
  end.

Definition recent_transactions (limit : Z) : M (list item) :=
  (sigs0 <~ rpc_call "getSignaturesForAddress"
              (Some [JStr system_program; JObj [("limit", JInt limit)]]) ;;
   let sigs := Py.or_ sigs0 (JArr []) in
   if negb (Py.truthy sigs) then ret []
   else
     sliced <~ lift (Py.slice_to sigs limit) ;;
     l <~ lift (Py.iter sliced) ;;
     fetch_items l [])%M.

(** The last block of [search]: [try: ... except HTTPException: raise
    HTTPException(status_code=404, ...)]. *)
Definition search_address (q_stripped : string) : M search_result :=
  try_except_http
    (bal <~ rpc_call "getBalance" (Some [JStr q_stripped]) ;;
     sigs <~ rpc_call "getSignaturesForAddress"
               (Some [JStr q_stripped; JObj [("limit", JInt 5)]]) ;;
     balance <~ lift (Py.truediv_by (Py.or_ bal (JInt 0)) 1000000000) ;;
     l <~ lift (Py.iter (Py.or_ sigs (JArr []))) ;;
     signatures <~ lift (signatures_of l) ;;
     ret (AddressResult q_stripped balance signatures))%M
    (raise (HTTPException 404 NotFoundOrInvalid)).

(** The second block of [search]; [None] when control falls through. *)
Definition search_signature (q_stripped : string) : M (option search_result) :=
  let n := String.length q_stripped in
  if ((80 <=? n) && (n <=? 100))%nat then
    (tx <~ try_except_http
             (rpc_call "getTransaction" (Some [JStr q_stripped; tx_options]))
             (ret JNull) ;;
     if Py.truthy tx then
       r <~ lift (signature_result q_stripped tx) ;; ret (Some r)
     else ret None)%M
  else ret None.

Definition search (q : string) : M search_result :=
  let q_stripped := Py.strip q in
  if Py.isdigit q_stripped then
    (slot <~ lift (Py.int q_stripped) ;;
     block <~ try_except_http
                (rpc_call "getBlock" (Some [JInt slot; tx_options]))
                (ret JNull) ;;
     tx_count <~ lift (if Py.truthy block then
                         (txs <- Py.get block "transactions" (JArr []) ;; Py.len txs)%res
                       else Ok 0%nat) ;;
     ret (SlotResult slot tx_count))%M
  else
    (found <~ search_signature q_stripped ;;
     match found with
     | Some r => ret r
     | None => search_address q_stripped
     end)%M.

End Handlers.

(** ** Predicates used in the statements *)

(** [label] is a program identifier read from the first instruction of
    [tx]: the string under [programId], or else under [programIdIndex]. *)
Definition program_id_of (tx : json) (label : string) : Prop :=
  exists kv tkv mkv ikv rest,
    tx = JObj kv /\
    Py.lookup "transaction" kv = Some (JObj tkv) /\
    Py.lookup "message" tkv = Some (JObj mkv) /\
    Py.lookup "instructions" mkv = Some (JArr (JObj ikv :: rest)) /\
    (Py.lookup "programId" ikv = Some (JStr label) \/
     Py.lookup "programIdIndex" ikv = Some (JStr label)).

(** The labeler finds no instruction list on the way down from the
    items [kv] of a transaction object: [transaction], [message] or
    [instructions] is missing. *)
Definition no_instructions (kv : list (string * json)) : bool :=
  match Py.lookup "transaction" kv with
  | None => true
  | Some (JObj tkv) =>
      match Py.lookup "message" tkv with
      | None => true
      | Some (JObj mkv) =>
          match Py.lookup "instructions" mkv with
          | None => true
          | Some _ => false
          end
      | Some _ => false
      end
  | Some _ => false
  end.

Definition is_object (v : json) : bool :=
  match v with
  | JObj _ => true
  | _ => false
  end.

(** A performance sample as the data model has it. *)
Record PerformanceSample : Type := {
  numTransactions : Z;
  samplePeriodSecs : Z
}.

Definition decode_sample (j : json) : option PerformanceSample :=
  match j with
  | JObj kv =>
      match Py.lookup "numTransactions" kv, Py.lookup "samplePeriodSecs" kv with
      | Some (JInt n), Some (JInt p) =>
          Some {| numTransactions := n; samplePeriodSecs := p |}
      | _, _ => None
      end
  | _ => None
  end.

Fixpoint decode_samples (js : list json) : option (list PerformanceSample) :=
  match js with
  | [] => Some []
  | j :: rest =>
      match decode_sample j, decode_samples rest with
      | Some s, Some ss => Some (s :: ss)
      | _, _ => None
      end
  end.

Definition total_transactions (ss : list PerformanceSample) : Z :=
  fold_right (fun s acc => numTransactions s + acc) 0 ss.

Definition total_seconds (ss : list PerformanceSample) : Z :=
  fold_right (fun s acc => samplePeriodSecs s + acc) 0 ss.

(** A block height as [getBlockHeight] returns it: an integer, or null
    when absent. *)
Definition height_json (h : option Z) : json :=
  match h with
  | Some z => JInt z
  | None => JNull
  end.

(** The query is a numeral: at least one character, all of them among
    the ten decimal digits. *)
Definition decimal_digits (s : string) : bool :=
  Py.nonempty s && Py.all_chars Py.is_decimal_char s.

(** The length test of the signature step. *)
Definition signature_length (s : string) : bool :=
  ((80 <=? String.length s) && (String.length s <=? 100))%nat.

(** The payloads [search] posts. *)
Definition block_request (slot : Z) : json :=
  payload "getBlock" (Some [JInt slot; tx_options]).

Definition transaction_request (signature : json) : json :=
  payload "getTransaction" (Some [signature; tx_options]).

Definition balance_request (address : string) : json :=
  payload "getBalance" (Some [JStr address]).

Definition signatures_request (address : string) (limit : Z) : json :=
  payload "getSignaturesForAddress" (Some [JStr address; JObj [("limit", JInt limit)]]).

(** The call raised an [HTTPException]: the transport failed or the
    response carried an [error] field. *)
Definition http_failure {A} (r : result A) : Prop :=
  exists status d, r = Raise (HTTPException status d).

(** [fetched net sigs l pairs l']: starting from log [l], every entry of
    the listing [sigs] had its detail fetched, in order and one request
    each; [pairs] holds each signature with the value the fetch returned,
    and [l'] is the log afterwards. *)
Inductive fetched (net : upstream) : list json -> log -> list (json * json) -> log -> Prop :=
| fetched_nil (l : log) : fetched net [] l [] l
| fetched_cons (s : json) (rest : list json) (l l' : log) (signature tx : json)
               (pairs : list (json * json)) :
    Py.get s "signature" JNull = Ok signature ->
    fst (rpc_call net "getTransaction" (Some [signature; tx_options]) l) = Ok tx ->
    fetched net rest (transaction_request signature :: l) pairs l' ->
    fetched net (s :: rest) l ((signature, tx) :: pairs) l'.

(** The fetched pairs whose transaction is present. *)
Definition present (pairs : list (json * json)) : list (json * json) :=
  filter (fun p => Py.truthy (snd p)) pairs.

(** [it] is the summary built from the pair [p]. *)
Definition summary_of (p : json * json) (it : item) : Prop :=
  tx_summary (fst p) (snd p) = Ok it.

(** The [method] of a posted payload. *)
Definition method_of (p : json) : string :=
  match p with
  | JObj kv => match Py.lookup "method" kv with Some (JStr m) => m | _ => "" end
  | _ => ""
  end.

Definition is_detail_request (p : json) : Prop := method_of p = "getTransaction".

(** The number of lamports in one SOL, as a denominator. *)
Definition giga : positive := 1000000000.

(** The value of the query read as a decimal numeral, by the standard
    library's parser of decimal numbers. *)
Definition numeral_value (s : string) : option Z :=
  option_map Z.of_uint (NilEmpty.uint_of_string s).

(** A numeral of [n] digits. *)
Definition numeral_of_length (n : nat) : string :=
  string_of_list_ascii (repeat "7"%char n).

(** The double nearest to [a / b], 0 where there is none. *)
Definition double (a b : Z) : Q :=
  match Py.double_of_ratio a b with
  | Ok x => x
  | Raise _ => 0%Q
  end.

(** ** Scripted upstreams *)

(** A response envelope carrying [result]. *)
Definition reply (v : json) : http_outcome :=
  Body (JObj [("jsonrpc", JStr "2.0"); ("result", v); ("id", JInt 1)]).

(** A response envelope carrying [error]. *)
Definition reply_error (code : Z) (message : string) : http_outcome :=
  Body (JObj [("jsonrpc", JStr "2.0");
              ("error", JObj [("code", JInt code); ("message", JStr message)]);
              ("id", JInt 1)]).

Definition sample (n p : Z) : json :=
  JObj [("numSlots", JInt 150); ("numTransactions", JInt n);
        ("samplePeriodSecs", JInt p); ("slot", JInt 250000000)].

(** An upstream that answers the stats requests; both block heights are
    answered with the given values. *)
Definition net_stats (samples height : json) : upstream :=
  fun _ p =>
    let m := method_of p in
    if String.eqb m "getSlot" then reply (JInt 250000000)
    else if String.eqb m "getRecentPerformanceSamples" then reply samples
    else if String.eqb m "getVoteAccounts" then
      reply (JObj [("current", JArr [JObj [("votePubkey", JStr "v1")];
                                      JObj [("votePubkey", JStr "v2")]]);
                   ("delinquent", JArr [JObj [("votePubkey", JStr "v3")]])])
    else if String.eqb m "getBlockHeight" then reply height
    else reply_error (-32601) "Method not found".

(** An upstream that answers each method [search] and the feed use with
    a fixed outcome. *)
Definition net_fixed (block tx bal sigs : http_outcome) : upstream :=
  fun _ p =>
    let m := method_of p in
    if String.eqb m "getBlock" then block
    else if String.eqb m "getTransaction" then tx
    else if String.eqb m "getBalance" then bal
    else if String.eqb m "getSignaturesForAddress" then sigs
    else reply_error (-32601) "Method not found".

Definition example_tx (fee_lamports : Z) : json :=
  JObj [("slot", JInt 250000001);
        ("meta", JObj [("err", JNull); ("fee", JInt fee_lamports)]);
        ("transaction",
         JObj [("message",
                JObj [("instructions", JArr [JObj [("programIdIndex", JInt 2)]])])])].

Definition listed (signature : string) : json :=
  JObj [("signature", JStr signature); ("slot", JInt 250000001)].

(** The first parameter of a posted payload. *)
Definition first_param (p : json) : json :=
  match p with
  | JObj kv =>
      match Py.lookup "params" kv with
      | Some (JArr (x :: _)) => x
      | _ => JNull
      end
  | _ => JNull
  end.

(** An upstream for the feed: three signatures are listed, and the detail
    of the second one is absent. *)
Definition net_feed : upstream :=
  fun _ p =>
    let m := method_of p in
    if String.eqb m "getSignaturesForAddress" then
      reply (JArr [listed "sigA"; listed "sigB"; listed "sigC"])
    else if String.eqb m "getTransaction" then
      match first_param p with
      | JStr "sigB" => reply JNull
      | _ => reply (example_tx 5000)
      end
    else reply_error (-32601) "Method not found".

Definition example_item (signature : string) : item :=
  {| sig := JStr signature; item_slot := JInt 250000001;
     fee := double 5000 1000000000; type_ := "Success" |}.

(** A query of 85 decimal digits, with surrounding blanks. *)
Definition long_numeral : string :=
  "  1234567890123456789012345678901234567890123456789012345678901234567890123456789012345 ".

(** A query of 88 base-58 characters. *)
Definition signature_query : string :=
  "5VERv8NMvzbJMEkV8xnrLkEaWRtSz9CosKDYjCJjBRnbJLgp8uirBgmQpjKhoR4tjF3ZpRzrFmBV6UjKdiSZkQUW".

(** Two superscript-two characters: digits for [isdigit], not decimal. *)
Definition superscript_query : string :=
  String (ascii_of_N 178) (String (ascii_of_N 178) EmptyString).

(** The samples of the specification's end-to-end scenario. *)
Definition scenario_samples : json := JArr [sample 100 60; sample 50 30].

(** ** Further predicates *)

Definition is_http (e : exn) : bool :=
  match e with
  | HTTPException _ _ => true
  | _ => false
  end.

(** The computation does not raise an [HTTPException]. *)
Definition no_http {A} (r : result A) : Prop :=
  forall e, r = Raise e -> is_http e = false.

(** A field read with a list default, as [d.get(key, [])] followed by
    [len]: the list it holds, the empty list when it is missing. *)
Definition list_field (key : string) (kv : list (string * json)) : option (list json) :=
  match Py.lookup key kv with
  | None => Some []
  | Some (JArr l) => Some l
  | Some _ => None
  end.

(** Every [HTTPException] the handler raises has the given status. *)
Definition http_status_only {A} (status : Z) (m : M A) : Prop :=
  forall l s d, fst (m l) = Raise (HTTPException s d) -> s = status.

(** An upstream for the stats requests whose two block heights differ: the
    second [getBlockHeight] (the one posted right after another) is answered
    with [height2]. *)
Definition net_heights (height1 height2 : json) : upstream :=
  fun l p =>
    match l with
    | prev :: _ =>
        if String.eqb (method_of p) "getBlockHeight"
           && String.eqb (method_of prev) "getBlockHeight"
        then reply height2
        else net_stats scenario_samples height1 l p
    | [] => net_stats scenario_samples height1 l p
    end.

(** What the stats handler returns on [net_heights (JInt 1000) (JInt 1003)]. *)
Definition scenario_stats : stats :=
  {| tps := Some (double 167 100); slot := JInt 250000000; validators := 3;
     recentBlocks := 3 |}.

(** The first instruction the labeler reads from the items [kv] of a
    transaction object, when it is an object itself. *)
Definition first_instruction (kv : list (string * json)) : option (list (string * json)) :=
  match Py.lookup "transaction" kv with
  | Some (JObj tkv) =>
      match Py.lookup "message" tkv with
      | Some (JObj mkv) =>
          match Py.lookup "instructions" mkv with
          | Some (JArr (JObj ikv :: _)) => Some ikv
          | _ => None
          end
      | _ => None
      end
  | _ => None
  end.

(** [d.get(key)] on the items of an object. *)
Definition field_or_null (key : string) (kv : list (string * json)) : json :=
  match Py.lookup key kv with
  | Some v => v
  | None => JNull
  end.

Definition is_string (v : json) : bool :=
  match v with
  | JStr _ => true
  | _ => false
  end.

(** The items of a transaction whose first instruction is [instruction]
    and whose meta records the error [err]. *)
Definition tx_items (instruction : list (string * json)) (err : json) :
  list (string * json) :=
  [("slot", JInt 250000001);
   ("meta", JObj [("err", err); ("fee", JInt 5000)]);
   ("transaction",
    JObj [("message", JObj [("instructions", JArr [JObj instruction; JObj []])])])].

(** An upstream for the feed on which the detail of the second listed
    signature cannot be fetched. *)
Definition net_feed_broken : upstream :=
  fun l p =>
    if String.eqb (method_of p) "getTransaction" then
      match first_param p with
      | JStr "sigB" => RequestFailed "timed out"
      | _ => net_feed l p
      end
    else net_feed l p.

(** * Properties *)

(** ** Inversion lemmas for the Python primitives *)

Lemma rbind_ok {A B} (r : result A) (k : A -> result B) (b : B) :
  rbind r k = Ok b -> exists a, r = Ok a /\ k a = Ok b.
Proof.
  destruct r as [a | e]; simpl; intros H; [exists a; auto | discriminate].
Qed.

Lemma get_ok (o : json) (key : string) (default v : json) :
  Py.get o key default = Ok v ->
  exists kv, o = JObj kv /\
             match Py.lookup key kv with Some x => x | None => default end = v.
Proof.
  destruct o; simpl; intros H; try discriminate.
  injection H as <-. eexists; split; reflexivity.
Qed.

Lemma lookup_default_truthy (key : string) (kv : list (string * json)) (d v : json) :
  match Py.lookup key kv with Some x => x | None => d end = v ->
  Py.truthy d = false -> Py.truthy v = true -> Py.lookup key kv = Some v.
Proof.
  destruct (Py.lookup key kv); intros <- Hd Hv; [reflexivity | congruence].
Qed.

Lemma index0_obj_inv (o : json) (ikv : list (string * json)) :
  Py.index0 o = Ok (JObj ikv) -> exists rest, o = JArr (JObj ikv :: rest).
Proof.
  destruct o as [| | | s | l | kv]; simpl; try discriminate.
  - destruct s; discriminate.
  - destruct l as [| x rest]; [discriminate |].
    intros H; injection H as ->. exists rest; reflexivity.
Qed.

(** ** The transaction labeler *)

Lemma str_of_default_null (key : string) (ikv : list (string * json)) (s : string) :
  match Py.lookup key ikv with Some x => x | None => JNull end = JStr s ->
  Py.lookup key ikv = Some (JStr s).
Proof.
  destruct (Py.lookup key ikv); intros H; [congruence | discriminate].
Qed.

Lemma label_body_cases (tx : json) (label : string) :
  program_label_body tx = Ok label ->
  program_id_of tx label \/ label = "Success" \/ label = "Error".
Proof.
  unfold program_label_body. intros H.
  apply rbind_ok in H as (transaction & Ht & H).
  apply rbind_ok in H as (message & Hm & H).
  apply rbind_ok in H as (instructions & Hi & H).
  apply rbind_ok in H as (found & Hf & H).
  destruct found as [prog |].
  - injection H as ->. left.
    destruct (Py.truthy instructions) eqn:Htr; [| discriminate].
    apply rbind_ok in Hf as (first & Hfirst & Hf).
    apply rbind_ok in Hf as (a & Ha & Hf).
    apply rbind_ok in Hf as (prog & Hprog & Hf).
    apply get_ok in Ha as (ikv & -> & Ha).
    apply index0_obj_inv in Hfirst as (rest & ->).
    apply get_ok in Hi as (mkv & -> & Hi).
    apply lookup_default_truthy in Hi; [| reflexivity | reflexivity].
    apply get_ok in Hm as (tkv & -> & Hm).
    assert (Hm' : Py.lookup "message" tkv = Some (JObj mkv)).
    { destruct (Py.lookup "message" tkv) as [x |]; [congruence |].
      injection Hm as <-. discriminate. }
    apply get_ok in Ht as (kv & -> & Ht).
    assert (Ht' : Py.lookup "transaction" kv = Some (JObj tkv)).
    { destruct (Py.lookup "transaction" kv) as [x |]; [congruence |].
      injection Ht as <-. discriminate. }
    exists kv, tkv, mkv, ikv, rest. repeat split; try assumption.
    destruct prog; try discriminate. injection Hf as ->.
    destruct (Py.truthy a).
    + injection Hprog as ->. left. now apply str_of_default_null.
    + simpl in Hprog. injection Hprog as Hprog. right.
      now apply str_of_default_null.
  - apply rbind_ok in H as (meta & _ & H).
    apply rbind_ok in H as (err & _ & H).
    injection H as <-. destruct (Py.is_none err); auto.
Qed.

Lemma program_label_returns (tx : json) :
  exists label, _program_label tx = Ok label.
Proof.
  unfold _program_label.
  destruct (program_label_body tx) as [label | e]; eexists; reflexivity.
Qed.

(** C7.  On every input value the labeler returns without raising, and
    what it returns is a program identifier read from the input, or one of
    the literals ["Success"], ["Error"], ["Transaction"]. *)
Theorem program_label_total (tx : json) :
  exists label,
    _program_label tx = Ok label /\
    (program_id_of tx label \/ label = "Success" \/ label = "Error" \/
     label = "Transaction").
Proof.
  unfold _program_label.
  destruct (program_label_body tx) as [label | e] eqn:E.
  - exists label. split; [reflexivity |].
    apply label_body_cases in E. tauto.
  - exists "Transaction". auto.
Qed.

Lemma label_not_object (tx : json) :
  is_object tx = false -> _program_label tx = Ok "Transaction".
Proof.
  destruct tx; simpl; intros H; try reflexivity. discriminate.
Qed.

Lemma label_no_instructions (kv : list (string * json)) :
  no_instructions kv = true ->
  Py.lookup "meta" kv = None ->
  _program_label (JObj kv) = Ok "Success".
Proof.
  unfold no_instructions, _program_label, program_label_body.
  intros Hni Hmeta. simpl. rewrite Hmeta.
  destruct (Py.lookup "transaction" kv) as [t |]; [| reflexivity].
  destruct t as [| | | | | tkv]; try discriminate. simpl.
  destruct (Py.lookup "message" tkv) as [m |]; [| reflexivity].
  destruct m as [| | | | | mkv]; try discriminate. simpl.
  destruct (Py.lookup "instructions" mkv); [discriminate | reflexivity].
Qed.

(** C8, as the specification states it, fails: an empty transaction object
    lacks every expected field and is labelled ["Success"]. *)
Lemma label_missing_fields_counterexample :
  no_instructions [] = true /\ Py.lookup "meta" [] = None /\
  _program_label (JObj []) = Ok "Success" /\
  _program_label (JObj []) <> Ok "Transaction".
Proof.
  repeat split; try reflexivity. discriminate.
Qed.

(** C8, amended.  A transaction object in which the labeler finds no
    instruction list ([transaction], [message] or [instructions] is
    missing) and no [meta] is labelled ["Success"]; the fallback
    ["Transaction"] is what a raw value that is not an object gets. *)
Theorem label_missing_fields (tx : json) :
  (forall kv, tx = JObj kv -> no_instructions kv = true ->
              Py.lookup "meta" kv = None -> _program_label tx = Ok "Success") /\
  (is_object tx = false -> _program_label tx = Ok "Transaction").
Proof.
  split.
  - intros kv -> Hni Hmeta. now apply label_no_instructions.
  - apply label_not_object.
Qed.

Lemma label_missing_fields_witness :
  _program_label (JObj [("slot", JInt 7)]) = Ok "Success" /\
  _program_label (JArr [JInt 1]) = Ok "Transaction".
Proof.
  split.
  - apply (proj1 (label_missing_fields (JObj [("slot", JInt 7)])) [("slot", JInt 7)]);
      reflexivity.
  - apply (proj2 (label_missing_fields (JArr [JInt 1]))); reflexivity.
Defined.

(** ** The RPC client *)

Lemma rpc_call_log (net : upstream) (method : string) (params : option (list json))
      (l : log) :
  snd (rpc_call net method params l) = payload method params :: l.
Proof.
  unfold rpc_call. destruct (net l (payload method params)); reflexivity.
Qed.

Lemma rpc_call_body (net : upstream) (method : string) (params : option (list json))
      (l : log) (data : json) :
  net l (payload method params) = Body data ->
  rpc_call net method params l = (rpc_result data, payload method params :: l).
Proof.
  unfold rpc_call. intros ->. reflexivity.
Qed.

(** C5.  One call posts exactly one payload.  When the response body is an
    object with an [error] field the call raises the 502 exception that
    carries that field's value; when it is an object without one the call
    returns the [result] field, or null when there is none.  A transport
    failure is raised as it is: nothing is recovered or posted again. *)
Theorem rpc_call_contract (net : upstream) (method : string)
        (params : option (list json)) (l : log) :
  let p := payload method params in
  snd (rpc_call net method params l) = p :: l /\
  (forall kv err, net l p = Body (JObj kv) -> Py.lookup "error" kv = Some err ->
     fst (rpc_call net method params l) = Raise (HTTPException 502 (RpcError err))) /\
  (forall kv, net l p = Body (JObj kv) -> Py.lookup "error" kv = None ->
     fst (rpc_call net method params l) =
     Ok (match Py.lookup "result" kv with Some v => v | None => JNull end)) /\
  (forall cause, net l p = RequestFailed cause ->
     fst (rpc_call net method params l) =
     Raise (HTTPException 502 (RpcRequestError cause))).
Proof.
  intros p. split; [apply rpc_call_log |]. repeat split.
  - intros kv err Hnet Herr. rewrite (rpc_call_body _ _ _ _ _ Hnet).
    unfold rpc_result. simpl. rewrite Herr. reflexivity.
  - intros kv Hnet Herr. rewrite (rpc_call_body _ _ _ _ _ Hnet).
    unfold rpc_result. simpl. rewrite Herr. reflexivity.
  - intros cause Hnet. unfold rpc_call. fold p. rewrite Hnet. reflexivity.
Qed.

Lemma rpc_call_contract_witness :
  fst (rpc_call (net_stats JNull JNull) "getBalance" (Some [JStr "abc"]) []) =
  Raise (HTTPException 502
           (RpcError (JObj [("code", JInt (-32601));
                            ("message", JStr "Method not found")]))) /\
  fst (rpc_call (net_stats JNull JNull) "getSlot" None []) = Ok (JInt 250000000) /\
  fst (rpc_call (fun _ _ => RequestFailed "timed out") "getSlot" None []) =
  Raise (HTTPException 502 (RpcRequestError "timed out")).
Proof.
  split; [| split].
  - eapply (proj1 (proj2 (rpc_call_contract (net_stats JNull JNull) "getBalance"
                            (Some [JStr "abc"]) []))); reflexivity.
  - apply (proj1 (proj2 (proj2 (rpc_call_contract (net_stats JNull JNull) "getSlot"
                                   None []))) _ eq_refl eq_refl).
  - apply (proj2 (proj2 (proj2 (rpc_call_contract (fun _ _ => RequestFailed "timed out")
                                   "getSlot" None []))) _ eq_refl).
Defined.

(** ** Inversion lemmas for the handler monad *)

Lemma bind_ok {A B} (m : M A) (k : A -> M B) (l l' : log) (b : B) :
  bind m k l = (Ok b, l') ->
  exists a l1, m l = (Ok a, l1) /\ k a l1 = (Ok b, l').
Proof.
  unfold bind. destruct (m l) as [[a | e] l1]; intros H.
  - exists a, l1. auto.
  - discriminate.
Qed.

Lemma lift_ok {A} (r : result A) (l l' : log) (a : A) :
  lift r l = (Ok a, l') -> r = Ok a /\ l' = l.
Proof.
  unfold lift. intros H. injection H as -> ->. auto.
Qed.

Lemma rpc_call_ok (net : upstream) (method : string) (params : option (list json))
      (l l' : log) (v : json) :
  rpc_call net method params l = (Ok v, l') ->
  fst (rpc_call net method params l) = Ok v /\ l' = payload method params :: l.
Proof.
  intros H. split.
  - rewrite H. reflexivity.
  - rewrite <- (rpc_call_log net method params l), H. reflexivity.
Qed.

(** ** The stats aggregator *)

Lemma decode_sample_fields (j : json) (s : PerformanceSample) :
  decode_sample j = Some s ->
  Py.get j "numTransactions" (JInt 0) = Ok (JInt (numTransactions s)) /\
  Py.get j "samplePeriodSecs" (JInt 0) = Ok (JInt (samplePeriodSecs s)).
Proof.
  destruct j as [| | | | | kv]; simpl; try discriminate.
  destruct (Py.lookup "numTransactions" kv) as [[| | n | | |] |]; try discriminate.
  destruct (Py.lookup "samplePeriodSecs" kv) as [[| | p | | |] |]; try discriminate.
  intros H; injection H as <-. simpl. auto.
Qed.

Lemma sum_decoded (js : list json) :
  forall ss acc,
    decode_samples js = Some ss ->
    Py.sum (fun s => Py.get s "numTransactions" (JInt 0)) js acc =
      Ok (acc + total_transactions ss) /\
    Py.sum (fun s => Py.get s "samplePeriodSecs" (JInt 0)) js acc =
      Ok (acc + total_seconds ss).
Proof.
  induction js as [| j rest IH]; intros ss acc H; simpl in H.
  - injection H as <-. simpl. rewrite Z.add_0_r. auto.
  - destruct (decode_sample j) as [s |] eqn:Hs; [| discriminate].
    destruct (decode_samples rest) as [ss' |] eqn:Hrest; [| discriminate].
    injection H as <-.
    destruct (decode_sample_fields _ _ Hs) as [Hn Hp].
    cbn [Py.sum]. rewrite Hn, Hp. cbn [rbind Py.as_int].
    destruct (IH ss' (acc + numTransactions s) eq_refl) as [-> _].
    destruct (IH ss' (acc + samplePeriodSecs s) eq_refl) as [_ ->].
    unfold total_transactions, total_seconds. cbn [fold_right].
    rewrite !Z.add_assoc. auto.
Qed.

Lemma decode_samples_nil (js : list json) (ss : list PerformanceSample) :
  decode_samples js = Some ss -> (js = [] <-> ss = []).
Proof.
  destruct js as [| j rest]; simpl.
  - intros H; injection H as <-. tauto.
  - destruct (decode_sample j); [| discriminate].
    destruct (decode_samples rest); [| discriminate].
    intros H; injection H as <-. split; discriminate.
Qed.

(** The [tps] step on a decoded sample list. *)
Lemma stats_tps_decoded (js : list json) (ss : list PerformanceSample) :
  decode_samples js = Some ss ->
  stats_tps (Py.or_ (JArr js) (JArr [])) =
  match ss with
  | [] => Ok None
  | _ :: _ =>
      if total_seconds ss =? 0 then Ok None
      else (q <- Py.truediv (total_transactions ss) (total_seconds ss) ;;
            r <- Py.round q 2 ;;
            Ok (Some r))%res
  end.
Proof.
  intros H. pose proof (decode_samples_nil _ _ H) as Hnil.
  destruct js as [| j rest].
  - destruct ss; [reflexivity |]. destruct Hnil as [Hnil _].
    now specialize (Hnil eq_refl).
  - destruct ss as [| s ss']; [destruct Hnil as [_ Hnil]; now specialize (Hnil eq_refl) |].
    unfold Py.or_, stats_tps. cbn [Py.truthy Py.iter rbind].
    destruct (sum_decoded _ _ 0 H) as [-> ->]. cbn [rbind].
    rewrite !Z.add_0_l.
    destruct (total_seconds (s :: ss') =? 0); reflexivity.
Qed.

(** What [solana_stats] returns as [tps] is what the [tps] step computed
    from the answer to the samples request. *)
Lemma solana_stats_tps (net : upstream) (l l' : log) (r : stats) (samples0 : json) :
  solana_stats net l = (Ok r, l') ->
  fst (rpc_call net "getRecentPerformanceSamples" (Some [JInt 30])
         (payload "getSlot" None :: l)) = Ok samples0 ->
  stats_tps (Py.or_ samples0 (JArr [])) = Ok (tps r).
Proof.
  unfold solana_stats. intros H Hs.
  apply bind_ok in H as (slot0 & l1 & Hslot & H).
  apply rpc_call_ok in Hslot as [_ ->].
  apply bind_ok in H as (s0 & l2 & Hsam & H).
  apply rpc_call_ok in Hsam as [Hsam ->].
  rewrite Hs in Hsam. injection Hsam as <-.
  apply bind_ok in H as (t & l3 & Ht & H).
  apply lift_ok in Ht as [Ht ->].
  repeat (apply bind_ok in H as (? & ? & _ & H)).
  unfold ret in H. injection H as <- _. exact Ht.
Qed.

(** C2.  When the samples request is answered with a sequence of
    performance samples and the handler returns, [tps] is
    [round(sum(numTransactions) / sum(samplePeriodSecs), 2)], the division
    and the rounding being those of Python floats, if the sequence is
    non-empty and the summed period is positive, and [tps] is absent exactly
    when the sequence is empty or the summed period is zero. *)
Theorem stats_tps_from_samples (net : upstream) (l l' : log) (r : stats)
        (js : list json) (ss : list PerformanceSample) :
  fst (rpc_call net "getRecentPerformanceSamples" (Some [JInt 30])
         (payload "getSlot" None :: l)) = Ok (JArr js) ->
  decode_samples js = Some ss ->
  solana_stats net l = (Ok r, l') ->
  (ss <> [] -> 0 < total_seconds ss ->
   exists quotient rounded,
     Py.truediv (total_transactions ss) (total_seconds ss) = Ok quotient /\
     Py.round quotient 2 = Ok rounded /\
     tps r = Some rounded) /\
  (tps r = None <-> ss = [] \/ total_seconds ss = 0).
Proof.
  intros Hcall Hdec Hstats.
  pose proof (solana_stats_tps _ _ _ _ _ Hstats Hcall) as Htps.
  rewrite (stats_tps_decoded _ _ Hdec) in Htps.
  destruct ss as [| s ss'].
  - injection Htps as Htps. split; [intros Hne; now elim Hne |]. split; auto.
  - destruct (Z.eqb_spec (total_seconds (s :: ss')) 0) as [E | E].
    + injection Htps as Htps. split; [lia |]. split; auto.
    + apply rbind_ok in Htps as (quotient & Hq & Htps).
      apply rbind_ok in Htps as (rounded & Hr & Htps).
      injection Htps as Htps. split.
      * intros _ _. exists quotient, rounded. auto.
      * rewrite <- Htps. split; [discriminate |].
        intros [Hnil | Hz]; [discriminate | contradiction].
Qed.

Lemma stats_tps_from_samples_witness :
  let net := net_stats scenario_samples (JInt 1000) in
  let r := {| tps := Some (double 167 100); slot := JInt 250000000;
              validators := 3; recentBlocks := 0 |} in
  let ss := [{| numTransactions := 100; samplePeriodSecs := 60 |};
             {| numTransactions := 50; samplePeriodSecs := 30 |}] in
  fst (solana_stats net []) = Ok r /\
  (exists quotient rounded,
     Py.truediv 150 90 = Ok quotient /\ Py.round quotient 2 = Ok rounded /\
     tps r = Some rounded) /\
  (tps r = None <-> ss = [] \/ total_seconds ss = 0).
Proof.
  intros net r ss.
  assert (Hrun : solana_stats net [] = (Ok r, snd (solana_stats net []))) by reflexivity.
  pose proof (stats_tps_from_samples net [] _ r [sample 100 60; sample 50 30] ss
                eq_refl eq_refl Hrun) as [Hval Habs].
  split; [reflexivity |]. split.
  - apply Hval; [discriminate | reflexivity].
  - exact Habs.
Defined.

Lemma recent_blocks_nonneg (height1 height2 : json) (n : Z) :
  stats_recent_blocks height1 height2 = Ok n -> 0 <= n.
Proof.
  unfold stats_recent_blocks. intros H.
  apply rbind_ok in H as (d & _ & H). injection H as <-. apply Z.le_max_l.
Qed.

(** On integer-or-absent heights the subtraction fails exactly when
    [height1] is absent and [height2] is absent or zero; otherwise the
    result is the clamped difference, with an absent or zero [height2]
    replaced by [height1]. *)
Lemma recent_blocks_heights (h1 h2 : option Z) :
  stats_recent_blocks (height_json h1) (height_json h2) =
  match h1, h2 with
  | None, None | None, Some 0 => Raise TypeError
  | None, Some b => Ok (Z.max 0 b)
  | Some a, None | Some a, Some 0 => Ok 0
  | Some a, Some b => Ok (Z.max 0 (b - a))
  end.
Proof.
  destruct h1 as [a |], h2 as [b |]; unfold stats_recent_blocks, Py.or_, Py.sub; simpl.
  - destruct b; simpl; destruct a; simpl; rewrite ?Z.sub_0_r, ?Z.sub_diag, ?Z.pos_sub_diag;
      reflexivity.
  - destruct a; simpl; rewrite ?Z.pos_sub_diag; reflexivity.
  - destruct b; simpl; reflexivity.
  - reflexivity.
Qed.

(** C3.  The code does not do what the claim says when both block heights
    are absent: [height2 or height1] is then [None], the subtraction raises
    [TypeError], and the handler fails. *)
Theorem recent_blocks_both_absent :
  stats_recent_blocks (height_json None) (height_json None) = Raise TypeError /\
  fst (solana_stats (net_stats scenario_samples JNull) []) = Raise TypeError.
Proof.
  split; reflexivity.
Qed.

(** ** The search classifier *)

Lemma all_chars_weaken (p q : ascii -> bool) (s : string) :
  (forall c, p c = true -> q c = true) ->
  Py.all_chars p s = true -> Py.all_chars q s = true.
Proof.
  intros Hpq. induction s as [| c rest IH]; simpl; [reflexivity |].
  intros H. apply andb_true_iff in H as [Hc Hrest].
  rewrite (Hpq _ Hc), (IH Hrest). reflexivity.
Qed.

Lemma decimal_digits_isdigit (s : string) :
  decimal_digits s = true -> Py.isdigit s = true.
Proof.
  unfold decimal_digits, Py.isdigit. intros H.
  apply andb_true_iff in H as [-> H]. simpl.
  apply (all_chars_weaken Py.is_decimal_char); [| exact H].
  intros c Hc. unfold Py.is_digit_char. rewrite Hc. reflexivity.
Qed.

Lemma decimal_digits_int (s : string) :
  decimal_digits s = true ->
  (String.length s <= Py.int_max_str_digits)%nat ->
  Py.int s = Ok (Py.decimal_value s 0).
Proof.
  unfold decimal_digits, Py.int. intros -> Hlen.
  apply Nat.leb_le in Hlen. rewrite Hlen. reflexivity.
Qed.

Lemma decimal_value_uint (s : string) :
  Py.all_chars Py.is_decimal_char s = true ->
  exists u, NilEmpty.uint_of_string s = Some u /\
            Z.of_N (Pos.of_uint u) = Py.decimal_value s 0 /\
            forall acc : positive,
              Z.pos (Pos.of_uint_acc u acc) = Py.decimal_value s (Z.pos acc).
Proof.
  induction s as [| c rest IH]; cbn [Py.all_chars].
  - intros _. exists Decimal.Nil. repeat split.
  - intros H. apply andb_true_iff in H as [Hc Hrest].
    destruct (IH Hrest) as (u & Hu & H0 & Hacc).
    cbn [NilEmpty.uint_of_string]. rewrite Hu.
    destruct c as [[] [] [] [] [] [] [] []]; try discriminate Hc;
      (eexists; split; [reflexivity |]; split;
       [ cbn [Pos.of_uint Py.decimal_value]; first [exact H0 | apply Hacc]
       | intros acc; cbn [Pos.of_uint_acc Py.decimal_value]; rewrite Hacc;
         f_equal; rewrite ?Pos2Z.inj_add, ?Pos2Z.inj_mul;
         match goal with
         | |- _ = _ + ?d => let z := eval vm_compute in d in change d with z
         end; lia ]).
Qed.

(** The parser reads a decimal numeral as the standard library does. *)
Lemma numeral_value_decimal (s : string) :
  decimal_digits s = true -> numeral_value s = Some (Py.decimal_value s 0).
Proof.
  unfold decimal_digits. intros H. apply andb_true_iff in H as [_ H].
  destruct (decimal_value_uint s H) as (u & Hu & H0 & _).
  unfold numeral_value. rewrite Hu. cbn [option_map]. unfold Z.of_uint. now rewrite H0.
Qed.

(** [try: v = rpc_call(...)  except HTTPException: v = None] *)
Lemma fetch_or_none (net : upstream) (method : string) (params : option (list json))
      (l : log) :
  try_except_http (rpc_call net method params) (ret JNull) l =
  (match fst (rpc_call net method params l) with
   | Raise (HTTPException _ _) => Ok JNull
   | r => r
   end,
   payload method params :: l).
Proof.
  unfold try_except_http.
  pose proof (rpc_call_log net method params l) as Hlog.
  destruct (rpc_call net method params l) as [[v | e] l1]; simpl in *; subst l1.
  - reflexivity.
  - destruct e; reflexivity.
Qed.

Lemma search_digits (net : upstream) (q : string) (l : log) :
  decimal_digits (Py.strip q) = true ->
  (String.length (Py.strip q) <= Py.int_max_str_digits)%nat ->
  let slot := Py.decimal_value (Py.strip q) 0 in
  search net q l =
  (match fst (try_except_http
                (rpc_call net "getBlock" (Some [JInt slot; tx_options])) (ret JNull) l) with
   | Ok block =>
       (n <- (if Py.truthy block then
                (txs <- Py.get block "transactions" (JArr []) ;; Py.len txs)%res
              else Ok 0%nat) ;;
        Ok (SlotResult slot n))%res
   | Raise e => Raise e
   end,
   block_request slot :: l).
Proof.
  intros Hd Hlen slot. unfold search.
  rewrite (decimal_digits_isdigit _ Hd).
  unfold bind at 1. unfold lift at 1. rewrite (decimal_digits_int _ Hd Hlen).
  fold slot. unfold bind at 1. rewrite fetch_or_none. cbn [fst].
  destruct (fst (rpc_call net "getBlock" (Some [JInt slot; tx_options]) l))
    as [block | e].
  - unfold bind, lift, ret.
    destruct (if Py.truthy block then _ else _); reflexivity.
  - destruct e; reflexivity.
Qed.

(** C1, as the specification states it, fails: a numeral of 4301 digits
    is digit-only, yet [int] refuses to convert it and [search] raises
    [ValueError] before any request, so no slot result is returned. *)
Lemma search_long_numeral_counterexample :
  decimal_digits (Py.strip (numeral_of_length 4301)) = true /\
  search (fun _ _ => reply JNull) (numeral_of_length 4301) [] = (Raise ValueError, []).
Proof. split; vm_compute; reflexivity. Qed.

(** C1, amended.  A query whose trimmed form is a decimal numeral of at
    least one and at most 4300 digits (80 to 100 digits included) is handled
    by the slot step alone: only the [getBlock] request for the parsed slot
    is posted, whatever is returned has kind ["slot"], the slot is the
    number the numeral denotes, and the result is the slot with the length
    of the block's transaction list, or with 0 when the block is absent (the
    fetch failed or returned nothing) or has no transaction list. *)
Theorem search_decimal_is_slot (net : upstream) (q : string) (l : log) :
  decimal_digits (Py.strip q) = true ->
  (String.length (Py.strip q) <= 4300)%nat ->
  let slot := Py.decimal_value (Py.strip q) 0 in
  let fetched := fst (rpc_call net "getBlock" (Some [JInt slot; tx_options]) l) in
  numeral_value (Py.strip q) = Some slot /\
  snd (search net q l) = block_request slot :: l /\
  (forall r, fst (search net q l) = Ok r -> kind r = "slot") /\
  (http_failure fetched -> fst (search net q l) = Ok (SlotResult slot 0)) /\
  (forall block, fetched = Ok block -> Py.truthy block = false ->
     fst (search net q l) = Ok (SlotResult slot 0)) /\
  (forall kv, fetched = Ok (JObj kv) -> Py.lookup "transactions" kv = None ->
     fst (search net q l) = Ok (SlotResult slot 0)) /\
  (forall kv txs, fetched = Ok (JObj kv) ->
     Py.lookup "transactions" kv = Some (JArr txs) ->
     fst (search net q l) = Ok (SlotResult slot (List.length txs))).
Proof.
  intros Hd Hlen slot fetched.
  split; [exact (numeral_value_decimal _ Hd) |].
  rewrite (search_digits net q l Hd Hlen). fold slot. rewrite fetch_or_none.
  cbn [fst snd]. fold fetched.
  split; [reflexivity |]. split; [| split; [| split; [| split]]].
  - intros r. destruct fetched as [block | e].
    + intros H. apply rbind_ok in H as (n & _ & H). injection H as <-. reflexivity.
    + destruct e; try discriminate.
      cbn. intros H; injection H as <-. reflexivity.
  - intros (status & d & ->). reflexivity.
  - intros block -> Hfalse. rewrite Hfalse. reflexivity.
  - intros kv -> Hnone. cbn [Py.get]. rewrite Hnone.
    destruct kv; reflexivity.
  - intros kv txs -> Hsome.
    assert (Htr : Py.truthy (JObj kv) = true).
    { destruct kv; [discriminate | reflexivity]. }
    rewrite Htr. cbn [Py.get]. rewrite Hsome. reflexivity.
Qed.

(** Why the statement above asks for decimal digits and at least one
    character: [isdigit] also accepts superscript digits, which [int]
    rejects, and it rejects the empty string a blank query trims to. *)
Lemma search_superscript_digits (net : upstream) (l : log) :
  Py.isdigit (Py.strip superscript_query) = true /\
  search net superscript_query l = (Raise ValueError, l).
Proof. split; reflexivity. Qed.

Lemma search_blank_query (net : upstream) (l : log) :
  Py.strip "  " = "" /\ Py.isdigit "" = false /\
  search net "  " l = search_address net "" l.
Proof.
  repeat split.
Qed.

Lemma search_not_digits (net : upstream) (q : string) (l : log) :
  Py.isdigit (Py.strip q) = false ->
  search net q l =
  match search_signature net (Py.strip q) l with
  | (Ok (Some r), l1) => (Ok r, l1)
  | (Ok None, l1) => search_address net (Py.strip q) l1
  | (Raise e, l1) => (Raise e, l1)
  end.
Proof.
  intros Hnd. unfold search. rewrite Hnd. unfold bind.
  destruct (search_signature net (Py.strip q) l) as [[[r |] | e] l1]; reflexivity.
Qed.

Lemma search_signature_short (net : upstream) (qs : string) (l : log) :
  signature_length qs = false -> search_signature net qs l = (Ok None, l).
Proof.
  unfold search_signature, signature_length. intros ->. reflexivity.
Qed.

Lemma search_signature_long (net : upstream) (qs : string) (l : log) :
  signature_length qs = true ->
  search_signature net qs l =
  (match fst (rpc_call net "getTransaction" (Some [JStr qs; tx_options]) l) with
   | Ok tx =>
       if Py.truthy tx then (r <- signature_result qs tx ;; Ok (Some r))%res
       else Ok None
   | Raise (HTTPException _ _) => Ok None
   | Raise e => Raise e
   end,
   transaction_request (JStr qs) :: l).
Proof.
  unfold search_signature, signature_length. intros ->.
  unfold bind at 1. rewrite fetch_or_none.
  destruct (fst (rpc_call net "getTransaction" (Some [JStr qs; tx_options]) l))
    as [tx | e].
  - destruct (Py.truthy tx); [| reflexivity].
    unfold bind, lift, ret. destruct (signature_result qs tx); reflexivity.
  - destruct e; reflexivity.
Qed.

(** The signature step falls through, with the request logged, when the
    fetch fails or returns a falsy value. *)
Lemma search_falls_through (net : upstream) (q : string) (l : log) :
  Py.isdigit (Py.strip q) = false ->
  signature_length (Py.strip q) = true ->
  let fetched :=
    fst (rpc_call net "getTransaction" (Some [JStr (Py.strip q); tx_options]) l) in
  http_failure fetched \/ (exists tx, fetched = Ok tx /\ Py.truthy tx = false) ->
  search net q l =
  search_address net (Py.strip q) (transaction_request (JStr (Py.strip q)) :: l).
Proof.
  intros Hnd Hlen fetched H.
  rewrite (search_not_digits _ _ _ Hnd), (search_signature_long _ _ _ Hlen).
  fold fetched. destruct H as [(status & d & ->) | (tx & -> & Hfalse)].
  - reflexivity.
  - rewrite Hfalse. reflexivity.
Qed.

Lemma search_skips_signature (net : upstream) (q : string) (l : log) :
  Py.isdigit (Py.strip q) = false ->
  signature_length (Py.strip q) = false ->
  search net q l = search_address net (Py.strip q) l.
Proof.
  intros Hnd Hlen.
  rewrite (search_not_digits _ _ _ Hnd), (search_signature_short _ _ _ Hlen).
  reflexivity.
Qed.

Lemma search_address_balance_fails (net : upstream) (qs : string) (l : log) :
  http_failure (fst (rpc_call net "getBalance" (Some [JStr qs]) l)) ->
  search_address net qs l =
  (Raise (HTTPException 404 NotFoundOrInvalid), balance_request qs :: l).
Proof.
  intros (status & d & H). unfold search_address, try_except_http, bind.
  pose proof (rpc_call_log net "getBalance" (Some [JStr qs]) l) as Hlog.
  destruct (rpc_call net "getBalance" (Some [JStr qs]) l) as [r l1].
  simpl in H, Hlog. subst. reflexivity.
Qed.

Lemma search_address_signatures_fail (net : upstream) (qs : string) (l : log)
      (bal : json) :
  fst (rpc_call net "getBalance" (Some [JStr qs]) l) = Ok bal ->
  http_failure (fst (rpc_call net "getSignaturesForAddress"
                       (Some [JStr qs; JObj [("limit", JInt 5)]])
                       (balance_request qs :: l))) ->
  search_address net qs l =
  (Raise (HTTPException 404 NotFoundOrInvalid),
   signatures_request qs 5 :: balance_request qs :: l).
Proof.
  intros Hbal (status & d & H). unfold search_address, try_except_http, bind.
  pose proof (rpc_call_log net "getBalance" (Some [JStr qs]) l) as Hlog.
  destruct (rpc_call net "getBalance" (Some [JStr qs]) l) as [r l1].
  simpl in Hbal, Hlog. subst.
  pose proof (rpc_call_log net "getSignaturesForAddress"
                (Some [JStr qs; JObj [("limit", JInt 5)]]) (balance_request qs :: l))
    as Hlog.
  unfold balance_request in *.
  destruct (rpc_call net "getSignaturesForAddress" _ _) as [r l1].
  simpl in H, Hlog. subst. reflexivity.
Qed.

Lemma search_address_kind (net : upstream) (qs : string) (l : log) (r : search_result) :
  fst (search_address net qs l) = Ok r -> kind r = "address".
Proof.
  unfold search_address, try_except_http.
  match goal with |- context [match ?m l with _ => _ end] => destruct (m l) as [[r0 | e] l1] eqn:E end.
  - cbn [fst]. intros H; injection H as ->.
    repeat (apply bind_ok in E as (? & ? & _ & E)).
    unfold ret in E. injection E as <- _. reflexivity.
  - destruct e; cbn; discriminate.
Qed.

(** C4.  For a query that is not a numeral: when the signature step's
    [getTransaction] call fails, [search] goes on as the address step
    (first part); and whenever the address step is reached, a failure of
    [getBalance], or of [getSignaturesForAddress] after a successful
    [getBalance], makes [search] raise the 404 exception instead of the
    upstream one (second part). *)
Theorem search_failure_policy (net : upstream) (q : string) (l : log) :
  let qs := Py.strip q in
  let tx_fetch := fst (rpc_call net "getTransaction" (Some [JStr qs; tx_options]) l) in
  Py.isdigit qs = false ->
  (signature_length qs = true -> http_failure tx_fetch ->
   search net q l = search_address net qs (transaction_request (JStr qs) :: l)) /\
  (forall l0,
     (signature_length qs = false /\ l0 = l) \/
     (signature_length qs = true /\ http_failure tx_fetch /\
      l0 = transaction_request (JStr qs) :: l) ->
     http_failure (fst (rpc_call net "getBalance" (Some [JStr qs]) l0)) \/
     (exists bal, fst (rpc_call net "getBalance" (Some [JStr qs]) l0) = Ok bal /\
        http_failure (fst (rpc_call net "getSignaturesForAddress"
                             (Some [JStr qs; JObj [("limit", JInt 5)]])
                             (balance_request qs :: l0)))) ->
     fst (search net q l) = Raise (HTTPException 404 NotFoundOrInvalid)).
Proof.
  intros qs tx_fetch Hnd. split.
  - intros Hlen Hfail. apply search_falls_through; auto.
  - intros l0 Hreach Haddr.
    assert (Heq : search net q l = search_address net qs l0).
    { destruct Hreach as [[Hlen ->] | (Hlen & Hfail & ->)].
      - now apply search_skips_signature.
      - apply search_falls_through; auto. }
    rewrite Heq. destruct Haddr as [Hbal | (bal & Hbal & Hsigs)].
    + rewrite (search_address_balance_fails _ _ _ Hbal). reflexivity.
    + rewrite (search_address_signatures_fail _ _ _ _ Hbal Hsigs). reflexivity.
Qed.

(** C10.  For a query of signature length that is not a numeral: when
    [getTransaction] succeeds but returns a falsy value (null), [search]
    does not build a signature result; it goes on as the address step, from
    the same log as after a failed fetch, and whatever it returns has kind
    ["address"]. *)
Theorem search_absent_transaction (net : upstream) (q : string) (l : log) (tx : json) :
  let qs := Py.strip q in
  Py.isdigit qs = false ->
  signature_length qs = true ->
  fst (rpc_call net "getTransaction" (Some [JStr qs; tx_options]) l) = Ok tx ->
  Py.truthy tx = false ->
  search net q l = search_address net qs (transaction_request (JStr qs) :: l) /\
  (forall r, fst (search net q l) = Ok r -> kind r = "address").
Proof.
  intros qs Hnd Hlen Hfetch Hfalse.
  assert (Heq : search net q l =
                search_address net qs (transaction_request (JStr qs) :: l)).
  { apply search_falls_through; auto. right. exists tx. auto. }
  split; [exact Heq |].
  intros r. rewrite Heq. apply search_address_kind.
Qed.

(** ** The transaction feed *)

Lemma tx_summary_sig (signature tx : json) (it : item) :
  tx_summary signature tx = Ok it -> sig it = signature.
Proof.
  unfold tx_summary. intros H.
  repeat (apply rbind_ok in H as (? & _ & H)).
  injection H as <-. reflexivity.
Qed.

Lemma fetch_items_step (net : upstream) (s : json) (rest : list json)
      (items : list item) (l : log) :
  fetch_items net (s :: rest) items l =
  match Py.get s "signature" JNull with
  | Raise e => (Raise e, l)
  | Ok signature =>
      match fst (rpc_call net "getTransaction" (Some [signature; tx_options]) l) with
      | Raise e => (Raise e, transaction_request signature :: l)
      | Ok tx =>
          if Py.truthy tx then
            match tx_summary signature tx with
            | Raise e => (Raise e, transaction_request signature :: l)
            | Ok it => fetch_items net rest (items ++ [it])
                         (transaction_request signature :: l)
            end
          else fetch_items net rest items (transaction_request signature :: l)
      end
  end.
Proof.
  cbn [fetch_items]. unfold bind at 1, lift at 1.
  destruct (Py.get s "signature" JNull) as [signature | e]; [| reflexivity].
  unfold bind at 1.
  pose proof (rpc_call_log net "getTransaction" (Some [signature; tx_options]) l) as Hlog.
  destruct (rpc_call net "getTransaction" (Some [signature; tx_options]) l)
    as [[tx | e] l1]; simpl in Hlog; subst l1; cbn [fst]; [| reflexivity].
  destruct (Py.truthy tx); cbn [negb]; [| reflexivity].
  unfold bind at 1, lift at 1.
  destruct (tx_summary signature tx); reflexivity.
Qed.

(** A signature whose detail is absent is skipped: the loop goes on with
    the rest of the listing and the items built so far. *)
Lemma fetch_items_skip (net : upstream) (s signature tx : json) (rest : list json)
      (items : list item) (l : log) :
  Py.get s "signature" JNull = Ok signature ->
  fst (rpc_call net "getTransaction" (Some [signature; tx_options]) l) = Ok tx ->
  Py.truthy tx = false ->
  fetch_items net (s :: rest) items l =
  fetch_items net rest items (transaction_request signature :: l).
Proof.
  intros Hs Htx Hfalse. rewrite fetch_items_step, Hs, Htx, Hfalse. reflexivity.
Qed.

Lemma fetch_items_ok (net : upstream) (sigs : list json) :
  forall items l out l',
    fetch_items net sigs items l = (Ok out, l') ->
    exists pairs added,
      fetched net sigs l pairs l' /\
      Forall2 summary_of (present pairs) added /\
      out = (items ++ added)%list.
Proof.
  induction sigs as [| s rest IH]; intros items l out l' H.
  - cbn in H. injection H as <- <-.
    exists [], []. repeat split; [constructor | constructor | now rewrite app_nil_r].
  - rewrite fetch_items_step in H.
    destruct (Py.get s "signature" JNull) as [signature | e] eqn:Hs; [| discriminate].
    destruct (fst (rpc_call net "getTransaction" (Some [signature; tx_options]) l))
      as [tx | e] eqn:Htx; [| discriminate].
    destruct (Py.truthy tx) eqn:Htr.
    + destruct (tx_summary signature tx) as [it | e] eqn:Hit; [| discriminate].
      apply IH in H as (pairs & added & Hf & Hall & ->).
      exists ((signature, tx) :: pairs), (it :: added). repeat split.
      * econstructor; eassumption.
      * unfold present. cbn [filter snd]. rewrite Htr. constructor; assumption.
      * rewrite <- app_assoc. reflexivity.
    + apply IH in H as (pairs & added & Hf & Hall & ->).
      exists ((signature, tx) :: pairs), added. repeat split.
      * econstructor; eassumption.
      * unfold present. cbn [filter snd]. rewrite Htr. assumption.
Qed.

(** The loop returns whenever every detail fetch returns and every
    present detail has a summary: an absent detail does not stop it. *)
Lemma fetch_items_complete (net : upstream) (sigs : list json) (l l' : log)
      (pairs : list (json * json)) :
  fetched net sigs l pairs l' ->
  forall items kept,
    Forall2 summary_of (present pairs) kept ->
    fetch_items net sigs items l = (Ok (items ++ kept)%list, l').
Proof.
  induction 1 as [l | s rest l l' signature tx pairs Hs Htx _ IH]; intros items kept Hall.
  - inversion Hall; subst. rewrite app_nil_r. reflexivity.
  - rewrite fetch_items_step, Hs, Htx. unfold present in Hall. cbn [filter snd] in Hall.
    destruct (Py.truthy tx).
    + inversion Hall as [| p it ps kept' Hit Hrest]; subst.
      unfold summary_of in Hit. cbn [fst snd] in Hit. rewrite Hit.
      rewrite (IH (items ++ [it])%list kept' Hrest), <- app_assoc. reflexivity.
    + apply IH. exact Hall.
Qed.

Lemma fetch_items_log (net : upstream) (sigs : list json) :
  forall items l,
    exists new,
      snd (fetch_items net sigs items l) = (new ++ l)%list /\
      (List.length new <= List.length sigs)%nat /\
      Forall is_detail_request new.
Proof.
  induction sigs as [| s rest IH]; intros items l.
  - exists []. repeat split; [reflexivity | constructor].
  - rewrite fetch_items_step.
    assert (Hone : forall signature (r : result (list item)),
               exists new,
                 snd (r, transaction_request signature :: l) = (new ++ l)%list /\
                 (List.length new <= List.length (s :: rest))%nat /\
                 Forall is_detail_request new).
    { intros signature r. exists [transaction_request signature].
      repeat split; [simpl; lia | constructor; [reflexivity | constructor]]. }
    assert (Hmore : forall signature items',
               exists new,
                 snd (fetch_items net rest items' (transaction_request signature :: l)) =
                 (new ++ l)%list /\
                 (List.length new <= List.length (s :: rest))%nat /\
                 Forall is_detail_request new).
    { intros signature items'.
      destruct (IH items' (transaction_request signature :: l)) as (new & Hnew & Hlen & Hall).
      exists (new ++ [transaction_request signature])%list. repeat split.
      - rewrite Hnew, <- app_assoc. reflexivity.
      - rewrite length_app. simpl. lia.
      - apply Forall_app. split; [assumption | constructor; [reflexivity | constructor]]. }
    destruct (Py.get s "signature" JNull) as [signature | e].
    + destruct (fst (rpc_call net "getTransaction" (Some [signature; tx_options]) l))
        as [tx | e]; [| apply Hone].
      destruct (Py.truthy tx); [| apply Hmore].
      destruct (tx_summary signature tx); [apply Hmore | apply Hone].
    + exists []. repeat split; [simpl; lia | constructor].
Qed.

Lemma fetched_length (net : upstream) (sigs : list json) (l l' : log)
      (pairs : list (json * json)) :
  fetched net sigs l pairs l' ->
  List.length pairs = List.length sigs /\
  signatures_of sigs = Ok (map fst pairs) /\
  l' = (rev (map (fun p => transaction_request (fst p)) pairs) ++ l)%list.
Proof.
  induction 1 as [l | s rest l l' signature tx pairs Hs Htx _ (IHlen & IHsig & IHlog)].
  - repeat split.
  - repeat split.
    + simpl. now rewrite IHlen.
    + cbn [signatures_of]. rewrite Hs, IHsig. reflexivity.
    + cbn [map rev fst]. rewrite <- app_assoc. exact IHlog.
Qed.

Lemma present_length (pairs : list (json * json)) :
  (List.length (present pairs) <= List.length pairs)%nat.
Proof. apply filter_length_le. Qed.

Lemma summaries_sigs (kept : list (json * json)) (added : list item) :
  Forall2 summary_of kept added -> map sig added = map fst kept.
Proof.
  induction 1 as [| p it kept added Hp _ IH]; [reflexivity |].
  simpl. rewrite IH, (tx_summary_sig _ _ _ Hp). reflexivity.
Qed.

Lemma slice_list_length {A} (l : list A) (n : Z) :
  0 <= n -> (List.length (Py.slice_list l n) <= Z.to_nat n)%nat.
Proof.
  intros Hn. unfold Py.slice_list.
  destruct (Z.ltb_spec n 0); [lia |]. apply firstn_le_length.
Qed.

Lemma listing_entries (v sliced : json) (limit : Z) (entries : list json) :
  0 <= limit ->
  Py.slice_to v limit = Ok sliced ->
  Py.iter sliced = Ok entries ->
  (List.length entries <= Z.to_nat limit)%nat.
Proof.
  intros Hlim Hslice Hiter.
  destruct v; simpl in Hslice; try discriminate; injection Hslice as <-;
    simpl in Hiter; injection Hiter as <-.
  - unfold Py.chars. rewrite length_map, list_ascii_of_string_of_list_ascii.
    now apply slice_list_length.
  - now apply slice_list_length.
Qed.

Lemma recent_transactions_unfold (net : upstream) (limit : Z) (l : log) :
  let l1 := signatures_request system_program limit :: l in
  recent_transactions net limit l =
  match fst (rpc_call net "getSignaturesForAddress"
               (Some [JStr system_program; JObj [("limit", JInt limit)]]) l) with
  | Raise e => (Raise e, l1)
  | Ok sigs0 =>
      if Py.truthy (Py.or_ sigs0 (JArr [])) then
        match Py.slice_to (Py.or_ sigs0 (JArr [])) limit with
        | Raise e => (Raise e, l1)
        | Ok sliced =>
            match Py.iter sliced with
            | Raise e => (Raise e, l1)
            | Ok entries => fetch_items net entries [] l1
            end
        end
      else (Ok [], l1)
  end.
Proof.
  intros l1. unfold recent_transactions. unfold bind at 1.
  pose proof (rpc_call_log net "getSignaturesForAddress"
                (Some [JStr system_program; JObj [("limit", JInt limit)]]) l) as Hlog.
  destruct (rpc_call net "getSignaturesForAddress" _ l) as [[sigs0 | e] l0];
    simpl in Hlog; subst l0; cbn [fst]; [| reflexivity].
  destruct (Py.truthy (Py.or_ sigs0 (JArr []))); cbn [negb]; [| reflexivity].
  unfold bind at 1, lift at 1.
  destruct (Py.slice_to (Py.or_ sigs0 (JArr [])) limit) as [sliced | e]; [| reflexivity].
  unfold bind at 1, lift at 1.
  destruct (Py.iter sliced); reflexivity.
Qed.

(** C6.  For a limit between 1 and 20: at most [limit] detail requests
    are posted after the listing request; an empty (or absent) listing gives
    the empty sequence with no detail request; a returned sequence has at
    most [limit] items; when the listing is a list and the handler
    returns, every one of its first [limit] entries was fetched, in order,
    and the items are the summaries of exactly those whose detail is
    present, in the listing's order; the handler does return, with those
    summaries, whenever every one of the first [limit] detail fetches
    returns and every present detail has a summary, however many of the
    details are absent; and the loop, at a signature whose detail is absent,
    goes on with the rest of the listing and the items it has. *)
Theorem recent_transactions_feed (net : upstream) (limit : Z) (l : log) :
  1 <= limit <= 20 ->
  let listing :=
    fst (rpc_call net "getSignaturesForAddress"
           (Some [JStr system_program; JObj [("limit", JInt limit)]]) l) in
  let l1 := signatures_request system_program limit :: l in
  let run := recent_transactions net limit l in
  (exists new, snd run = (new ++ l1)%list /\
               (List.length new <= Z.to_nat limit)%nat /\
               Forall is_detail_request new) /\
  (forall v, listing = Ok v -> Py.truthy v = false -> run = (Ok [], l1)) /\
  (forall items, fst run = Ok items -> (List.length items <= Z.to_nat limit)%nat) /\
  (forall sigs items,
     listing = Ok (JArr sigs) -> fst run = Ok items ->
     exists pairs,
       fetched net (firstn (Z.to_nat limit) sigs) l1 pairs (snd run) /\
       Forall2 summary_of (present pairs) items /\
       map sig items = map fst (present pairs)) /\
  (forall sigs pairs kept l',
     listing = Ok (JArr sigs) ->
     fetched net (firstn (Z.to_nat limit) sigs) l1 pairs l' ->
     Forall2 summary_of (present pairs) kept ->
     run = (Ok kept, l')) /\
  (forall s signature tx rest items l0,
     Py.get s "signature" JNull = Ok signature ->
     fst (rpc_call net "getTransaction" (Some [signature; tx_options]) l0) = Ok tx ->
     Py.truthy tx = false ->
     fetch_items net (s :: rest) items l0 =
     fetch_items net rest items (transaction_request signature :: l0)).
Proof.
  intros Hlim listing l1 run.
  assert (Hrun : run = _) by (exact (recent_transactions_unfold net limit l)).
  cbv zeta in Hrun. fold listing l1 in Hrun.
  assert (Hnil : exists new : list json,
             l1 = (new ++ l1)%list /\ (List.length new <= Z.to_nat limit)%nat /\
             Forall is_detail_request new).
  { exists []. repeat split; [simpl; lia | constructor]. }
  split; [| split; [| split; [| split; [| split]]]].
  - rewrite Hrun. destruct listing as [sigs0 | e]; [| exact Hnil].
    destruct (Py.truthy (Py.or_ sigs0 (JArr []))); [| exact Hnil].
    destruct (Py.slice_to (Py.or_ sigs0 (JArr [])) limit) as [sliced | e] eqn:Hs;
      [| exact Hnil].
    destruct (Py.iter sliced) as [entries | e] eqn:Hi; [| exact Hnil].
    destruct (fetch_items_log net entries [] l1) as (new & Hnew & Hlen & Hall).
    exists new. repeat split; try assumption.
    assert (List.length entries <= Z.to_nat limit)%nat
      by (eapply listing_entries; [| eassumption | eassumption]; lia).
    lia.
  - intros v Hv Hfalse. rewrite Hrun, Hv. unfold Py.or_. rewrite Hfalse. reflexivity.
  - intros items. rewrite Hrun. destruct listing as [sigs0 | e]; [| discriminate].
    destruct (Py.truthy (Py.or_ sigs0 (JArr []))).
    + destruct (Py.slice_to (Py.or_ sigs0 (JArr [])) limit) as [sliced | e] eqn:Hs;
        [| discriminate].
      destruct (Py.iter sliced) as [entries | e] eqn:Hi; [| discriminate].
      destruct (fetch_items net entries [] l1) as [r l2] eqn:Hf. cbn [fst].
      intros ->. apply fetch_items_ok in Hf as (pairs & added & Hfetched & Hall & ->).
      apply fetched_length in Hfetched as (Hlen & _ & _).
      pose proof (present_length pairs) as Hp.
      apply Forall2_length in Hall.
      assert (List.length entries <= Z.to_nat limit)%nat
        by (eapply listing_entries; [| eassumption | eassumption]; lia).
      simpl. lia.
    + cbn [fst]. intros H; injection H as <-. simpl. lia.
  - intros sigs items Hv. rewrite Hrun, Hv. unfold Py.or_.
    destruct sigs as [| s rest].
    + cbn. intros H; injection H as <-.
      exists []. rewrite firstn_nil. repeat split; constructor.
    + cbn [Py.truthy Py.slice_to Py.iter].
      unfold Py.slice_list. destruct (Z.ltb_spec limit 0) as [Hneg | _]; [lia |].
      destruct (fetch_items net (firstn (Z.to_nat limit) (s :: rest)) [] l1)
        as [r l2] eqn:Hf. cbn [fst snd].
      intros ->. apply fetch_items_ok in Hf as (pairs & added & Hfetched & Hall & ->).
      exists pairs. cbn [app]. repeat split; try assumption.
      now apply summaries_sigs.
  - intros sigs pairs kept l' Hv Hf Hall. rewrite Hrun, Hv. unfold Py.or_.
    destruct sigs as [| s rest].
    + rewrite firstn_nil in Hf. inversion Hf; subst. inversion Hall; subst. reflexivity.
    + cbn [Py.truthy Py.slice_to Py.iter].
      unfold Py.slice_list. destruct (Z.ltb_spec limit 0) as [Hneg | _]; [lia |].
      exact (fetch_items_complete _ _ _ _ _ Hf [] kept Hall).
  - intros s signature tx rest items l0 Hs Htx Hfalse.
    rewrite fetch_items_step, Hs, Htx, Hfalse. reflexivity.
Qed.

(** ** Binary64: rounding a quotient by 1e9 to nine decimals *)

Local Open Scope Q_scope.

Lemma rhe_error (z : Q) :
  inject_Z (Py.round_half_even z) - (1#2) <= z /\ z <= inject_Z (Py.round_half_even z) + (1#2).
Proof.
  destruct z as [n d]. unfold Py.round_half_even. cbn [Qnum Qden].
  pose proof (Z.div_mod n (Z.pos d) ltac:(lia)) as Hdm.
  pose proof (Z.mod_pos_bound n (Z.pos d) ltac:(lia)) as Hr.
  set (fl := (n / Z.pos d)%Z) in *. set (r := (n mod Z.pos d)%Z) in *.
  assert (Hk : forall k : Z, (- Z.pos d <= 2 * (n - k * Z.pos d) <= Z.pos d)%Z ->
              inject_Z k - (1#2) <= n # d /\ n # d <= inject_Z k + (1#2)).
  { intros k Hk. unfold Qle, Qminus, Qplus, Qopp, inject_Z. cbn [Qnum Qden].
    rewrite ?Pos2Z.inj_mul. split; nia. }
  apply Hk.
  destruct (Z.compare_spec (2 * r) (Z.pos d)) as [E | E | E].
  - destruct (Z.even fl); nia.
  - nia.
  - nia.
Qed.

Lemma rhe_unique (z : Q) (k : Z) :
  inject_Z k - (1#2) < z -> z < inject_Z k + (1#2) -> Py.round_half_even z = k.
Proof.
  intros Hlo Hhi. destruct (rhe_error z) as [Elo Ehi].
  assert (H1 : inject_Z (Py.round_half_even z) < inject_Z k + 1) by lra.
  assert (H2 : inject_Z k < inject_Z (Py.round_half_even z) + 1) by lra.
  assert (H1' : inject_Z (Py.round_half_even z) < inject_Z (k + 1)).
  { rewrite inject_Z_plus. exact H1. }
  assert (H2' : inject_Z k < inject_Z (Py.round_half_even z + 1)).
  { rewrite inject_Z_plus. exact H2. }
  rewrite <- Zlt_Qlt in H1', H2'. lia.
Qed.

Lemma two_neq_0 : ~ 2 == 0.
Proof. discriminate. Qed.

Lemma pow2_pos (p : Z) : 0 < 2 ^ p.
Proof. apply Qpower_0_lt. reflexivity. Qed.

Lemma pow2_le (a b : Z) : (a <= b)%Z -> 2 ^ a <= 2 ^ b.
Proof. intros H. apply Qpower_le_compat_l; [exact H | discriminate]. Qed.

Lemma pow2_lt (a b : Z) : (a < b)%Z -> 2 ^ a < 2 ^ b.
Proof. intros H. apply Qpower_lt_compat_l; [exact H | reflexivity]. Qed.

Lemma pow2_succ (p : Z) : 2 ^ (p + 1) == 2 * 2 ^ p.
Proof. rewrite Qpower_plus by exact two_neq_0. change (2 ^ 1) with 2. ring. Qed.

Lemma pow2_inject (n : Z) : (0 <= n)%Z -> 2 ^ n == inject_Z (2 ^ n).
Proof. intros H. rewrite Zpower_Qpower by exact H. reflexivity. Qed.

Lemma pow2_ratio (a b : Z) :
  (0 <= a)%Z -> (0 <= b)%Z -> 2 ^ (a - b) == inject_Z (2 ^ a) / inject_Z (2 ^ b).
Proof.
  intros Ha Hb. rewrite Qpower_minus by exact two_neq_0.
  rewrite !pow2_inject by assumption. reflexivity.
Qed.

Lemma ratio_lt (n : Z) (d : positive) (A B : Z) :
  (0 < n)%Z -> (n < A)%Z -> (0 < B)%Z -> (B <= Z.pos d)%Z ->
  n # d < inject_Z A / inject_Z B.
Proof.
  intros Hn HA HB HBd. apply Qlt_shift_div_l.
  - change 0 with (inject_Z 0). rewrite <- Zlt_Qlt. exact HB.
  - unfold Qlt, Qmult, inject_Z. cbn [Qnum Qden]. rewrite Pos.mul_1_r. nia.
Qed.

Lemma ratio_ge (n : Z) (d : positive) (A B : Z) :
  (0 < A)%Z -> (A <= n)%Z -> (Z.pos d < B)%Z ->
  inject_Z A / inject_Z B <= n # d.
Proof.
  intros HA HAn HB. apply Qle_shift_div_r.
  - change 0 with (inject_Z 0). rewrite <- Zlt_Qlt. lia.
  - unfold Qle, Qmult, inject_Z. cbn [Qnum Qden]. rewrite Pos.mul_1_r. nia.
Qed.

Lemma ilog2_spec (q : Q) : 0 < q -> 2 ^ Py.ilog2 q <= q /\ q < 2 ^ (Py.ilog2 q + 1).
Proof.
  destruct q as [n d]. intros Hq.
  assert (Hn : (0 < n)%Z).
  { unfold Qlt in Hq. cbn in Hq. lia. }
  unfold Py.ilog2. cbn [Qnum Qden].
  pose proof (Z.log2_spec n Hn) as [Hn1 Hn2].
  pose proof (Z.log2_spec (Z.pos d) ltac:(lia)) as [Hd1 Hd2].
  pose proof (Z.log2_nonneg n) as Hln. pose proof (Z.log2_nonneg (Z.pos d)) as Hld.
  set (ln := Z.log2 n) in *. set (ld := Z.log2 (Z.pos d)) in *.
  assert (Hup : n # d < 2 ^ (ln - ld + 1)).
  { replace (ln - ld + 1)%Z with (Z.succ ln - ld)%Z by lia.
    rewrite pow2_ratio by lia. apply ratio_lt; try lia;
      try (apply Z.pow_pos_nonneg; lia). }
  assert (Hlow : 2 ^ (ln - ld - 1) <= n # d).
  { replace (ln - ld - 1)%Z with (ln - Z.succ ld)%Z by lia.
    rewrite pow2_ratio by lia. apply ratio_ge; try lia;
      try (apply Z.pow_pos_nonneg; lia). }
  destruct (Qle_bool (2 ^ (ln - ld)) (n # d)) eqn:E.
  - apply Qle_bool_iff in E. split; assumption.
  - split; [exact Hlow |].
    replace (ln - ld - 1 + 1)%Z with (ln - ld)%Z by lia.
    apply Qnot_le_lt. intros H. apply Qle_bool_iff in H. congruence.
Qed.

Lemma ilog2_unique (q : Q) (e : Z) : 2 ^ e <= q -> q < 2 ^ (e + 1) -> Py.ilog2 q = e.
Proof.
  intros Hlo Hhi.
  assert (Hq : 0 < q) by (eapply Qlt_le_trans; [apply (pow2_pos e) | exact Hlo]).
  destruct (ilog2_spec q Hq) as [Slo Shi].
  destruct (Z.lt_trichotomy (Py.ilog2 q) e) as [H | [H | H]]; [| exact H |].
  - pose proof (pow2_le (Py.ilog2 q + 1) e ltac:(lia)). lra.
  - pose proof (pow2_le (e + 1) (Py.ilog2 q) ltac:(lia)). lra.
Qed.

Lemma nearest_error (t : Q) :
  let u := 2 ^ Py.ulp_exponent t in
  let m := Py.round_half_even (t / u) in
  Py.nearest t = inject_Z m * u /\
  inject_Z m * u - u * (1#2) <= t /\ t <= inject_Z m * u + u * (1#2).
Proof.
  intros u m. split; [reflexivity |].
  pose proof (pow2_pos (Py.ulp_exponent t)) as Hu. fold u in Hu.
  destruct (rhe_error (t / u)) as [Hlo Hhi]. fold m in Hlo, Hhi.
  assert (Ht : t == t / u * u) by (field; lra).
  split.
  - apply (Qmult_le_compat_r _ _ u) in Hlo; [| lra].
    rewrite <- Ht in Hlo. ring_simplify in Hlo. ring_simplify. lra.
  - apply (Qmult_le_compat_r _ _ u) in Hhi; [| lra].
    rewrite <- Ht in Hhi. ring_simplify in Hhi. ring_simplify. lra.
Qed.

Lemma nearest_close (dd : Q) (m p : Z) :
  (-1074 <= p)%Z ->
  (2 ^ 52 <= m < 2 ^ 53)%Z ->
  2 ^ (p + 52) <= dd ->
  inject_Z m * 2 ^ p - 2 ^ p * (1#2) < dd ->
  dd < inject_Z m * 2 ^ p + 2 ^ p * (1#2) ->
  Py.nearest dd = inject_Z m * 2 ^ p.
Proof.
  intros Hp [Hm1 Hm2] Hlow Hlo Hhi.
  pose proof (pow2_pos p) as Hu.
  assert (Hup : dd < 2 ^ (p + 52 + 1)).
  { assert (E : 2 ^ (p + 52 + 1) == 9007199254740992 * 2 ^ p).
    { replace (p + 52 + 1)%Z with (53 + p)%Z by lia.
      rewrite Qpower_plus by exact two_neq_0. reflexivity. }
    assert (Hm : inject_Z m * 2 ^ p <= 9007199254740991 * 2 ^ p).
    { apply Qmult_le_compat_r; [| lra].
      change 9007199254740991 with (inject_Z 9007199254740991).
      rewrite <- Zle_Qle. change (2 ^ 53)%Z with 9007199254740992%Z in Hm2. lia. }
    rewrite E. set (u := 2 ^ p) in *. set (X := inject_Z m * u) in *. lra. }
  assert (He : Py.ilog2 dd = (p + 52)%Z) by (apply ilog2_unique; assumption).
  unfold Py.nearest, Py.ulp_exponent. rewrite He.
  replace (Z.max (p + 52 - 52) (-1074)) with p by lia.
  f_equal. f_equal. apply rhe_unique.
  - apply Qlt_shift_div_l; [exact Hu |]. ring_simplify. ring_simplify in Hlo. lra.
  - apply Qlt_shift_div_r; [exact Hu |]. ring_simplify. ring_simplify in Hhi. lra.
Qed.

Lemma nearest_pow2 (dd : Q) (G : Z) :
  (-1022 <= G)%Z -> dd == 2 ^ G -> Py.nearest dd == 2 ^ G.
Proof.
  intros HG Hdd.
  assert (E : 2 ^ G == 4503599627370496 * 2 ^ (G - 52)).
  { replace G with (52 + (G - 52))%Z at 1 by lia.
    rewrite Qpower_plus by exact two_neq_0. reflexivity. }
  pose proof (pow2_pos (G - 52)) as Hu.
  rewrite (nearest_close dd 4503599627370496 (G - 52)).
  - change (inject_Z 4503599627370496) with 4503599627370496%Q. rewrite E. reflexivity.
  - lia.
  - split; [reflexivity | reflexivity].
  - replace (G - 52 + 52)%Z with G by lia. rewrite Hdd. apply Qle_refl.
  - change (inject_Z 4503599627370496) with 4503599627370496%Q.
    rewrite Hdd, E. set (u := 2 ^ (G - 52)) in *. lra.
  - change (inject_Z 4503599627370496) with 4503599627370496%Q.
    rewrite Hdd, E. set (u := 2 ^ (G - 52)) in *. lra.
Qed.

Lemma ratio_scaled (K : Z) : (K # giga) * 1000000000 == inject_Z K.
Proof. unfold Qeq, Qmult, inject_Z, giga. cbn [Qnum Qden]. lia. Qed.

Lemma inject_Z_eq (a b : Z) :
  inject_Z a < inject_Z b + 1 -> inject_Z b < inject_Z a + 1 -> a = b.
Proof.
  intros H1 H2.
  assert (H1' : inject_Z a < inject_Z (b + 1)) by (rewrite inject_Z_plus; exact H1).
  assert (H2' : inject_Z b < inject_Z (a + 1)) by (rewrite inject_Z_plus; exact H2).
  rewrite <- Zlt_Qlt in H1', H2'. lia.
Qed.

Lemma round_trip_core (F K : Z) :
  (0 < F)%Z ->
  let X := Py.nearest (F # giga) in
  inject_Z K - (1#2) <= X * 1000000000 ->
  X * 1000000000 <= inject_Z K + (1#2) ->
  (0 < K)%Z /\ Py.nearest (K # giga) == X.
Proof.
  intros HF X HK1 HK2.
  set (t := F # giga) in *.
  destruct (nearest_error t) as (HX & Hlo & Hhi). fold X in HX.
  set (p := Py.ulp_exponent t) in *. set (u := 2 ^ p) in *.
  set (m := Py.round_half_even (t / u)) in *.
  pose proof (pow2_pos p) as Hu. fold u in Hu.
  pose proof (ratio_scaled F) as HtF. fold t in HtF.
  pose proof (ratio_scaled K) as HdK. set (dd := K # giga) in *.
  assert (HF1 : 1 <= inject_Z F).
  { change 1 with (inject_Z 1). rewrite <- Zle_Qle. lia. }
  destruct (Z.le_gt_cases p (-30)) as [Hp | Hp].
  - (* the spacing is below 1e-9: the decimal is the quotient itself *)
    assert (Hu30 : u <= 1 # 1073741824).
    { unfold u. change (1 # 1073741824) with (2 ^ (-30)). now apply pow2_le. }
    assert (KF : K = F).
    { apply inject_Z_eq; rewrite HX in *; set (Y := inject_Z m * u) in *; lra. }
    subst K. split; [exact HF | reflexivity].
  - assert (Hu29 : 1 # 536870912 <= u).
    { unfold u. change (1 # 536870912) with (2 ^ (-29)). apply pow2_le. lia. }
    assert (Ht0 : 0 < t) by (unfold t, Qlt; cbn; lia).
    destruct (ilog2_spec t Ht0) as [Elo Ehi].
    assert (He : Py.ilog2 t = (p + 52)%Z) by (unfold p, Py.ulp_exponent in *; lia).
    rewrite He in Elo, Ehi.
    assert (E52 : 2 ^ (p + 52) == 4503599627370496 * u).
    { replace (p + 52)%Z with (52 + p)%Z by lia.
      rewrite Qpower_plus by exact two_neq_0. reflexivity. }
    assert (E53 : 2 ^ (p + 52 + 1) == 9007199254740992 * u).
    { replace (p + 52 + 1)%Z with (53 + p)%Z by lia.
      rewrite Qpower_plus by exact two_neq_0. reflexivity. }
    rewrite E52 in Elo. rewrite E53 in Ehi.
    assert (Hm1 : (4503599627370496 <= m)%Z).
    { destruct (Z.le_gt_cases 4503599627370496 m) as [H | H]; [exact H | exfalso].
      assert (Hm : inject_Z m * u <= 4503599627370495 * u).
      { apply Qmult_le_compat_r; [| lra].
        change 4503599627370495 with (inject_Z 4503599627370495).
        rewrite <- Zle_Qle. lia. }
      set (Y := inject_Z m * u) in *. lra. }
    assert (Hm2 : (m <= 9007199254740992)%Z).
    { destruct (Z.le_gt_cases m 9007199254740992) as [H | H]; [exact H | exfalso].
      assert (Hm : 9007199254740993 * u <= inject_Z m * u).
      { apply Qmult_le_compat_r; [| lra].
        change 9007199254740993 with (inject_Z 9007199254740993).
        rewrite <- Zle_Qle. lia. }
      set (Y := inject_Z m * u) in *. lra. }
    assert (Hpow : forall G : Z,
               (23 <= G)%Z -> X == 2 ^ G -> (0 < K)%Z /\ Py.nearest dd == X).
    { intros G HG HXG.
      assert (HXz : X == inject_Z (2 ^ G)) by (rewrite HXG; apply pow2_inject; lia).
      assert (Hpos : (0 < 2 ^ G)%Z) by (apply Z.pow_pos_nonneg; lia).
      assert (HKG : K = (2 ^ G * 1000000000)%Z).
      { apply inject_Z_eq; rewrite inject_Z_mult;
          change (inject_Z 1000000000) with 1000000000%Q; rewrite <- HXz; lra. }
      split; [lia |].
      rewrite HXG. apply nearest_pow2; [lia |].
      rewrite <- HXG, HXz. unfold dd. rewrite HKG.
      unfold Qeq, inject_Z, giga. cbn [Qnum Qden]. lia. }
    destruct (Z.eq_dec m 4503599627370496) as [-> | Hne1].
    { apply (Hpow (p + 52)%Z); [lia |]. rewrite HX, E52. reflexivity. }
    destruct (Z.eq_dec m 9007199254740992) as [-> | Hne2].
    { apply (Hpow (p + 52 + 1)%Z); [lia |]. rewrite HX, E53. reflexivity. }
    assert (Hlow : 4503599627370497 * u <= inject_Z m * u).
    { apply Qmult_le_compat_r; [| lra].
      change 4503599627370497 with (inject_Z 4503599627370497).
      rewrite <- Zle_Qle. lia. }
    assert (Hhigh : inject_Z m * u <= 9007199254740991 * u).
    { apply Qmult_le_compat_r; [| lra].
      change 9007199254740991 with (inject_Z 9007199254740991).
      rewrite <- Zle_Qle. lia. }
    assert (HKpos : (0 < K)%Z).
    { rewrite Zlt_Qlt. change (inject_Z 0) with 0.
      rewrite HX in *. set (Y := inject_Z m * u) in *. lra. }
    split; [exact HKpos |].
    rewrite HX. rewrite (nearest_close dd m p); [reflexivity | | | | |].
    + unfold p, Py.ulp_exponent. lia.
    + change (2 ^ 52)%Z with 4503599627370496%Z.
      change (2 ^ 53)%Z with 9007199254740992%Z. lia.
    + rewrite E52. rewrite HX in *. set (Y := inject_Z m * u) in *. lra.
    + fold u. rewrite HX in *. set (Y := inject_Z m * u) in *. lra.
    + fold u. rewrite HX in *. set (Y := inject_Z m * u) in *. lra.
Qed.


Lemma overflow_compat (X Y : Q) :
  Y == X -> Qle_bool (2 ^ 1024) X = false -> Qle_bool (2 ^ 1024) Y = false.
Proof.
  intros HY HX. destruct (Qle_bool (2 ^ 1024) Y) eqn:E; [| reflexivity].
  apply Qle_bool_iff in E. rewrite HY in E. apply Qle_bool_iff in E. congruence.
Qed.

Lemma round_of_quotient (f : Z) (x : Q) :
  Py.double_of_ratio f 1000000000 = Ok x ->
  exists y, Py.round x 9 = Ok y /\ y == x.
Proof.
  unfold Py.double_of_ratio at 1. destruct (Z.eqb_spec f 0) as [-> | Hf].
  - intros H; injection H as <-. exists 0. split; reflexivity.
  - change (Py.magnitude f 1000000000) with (Z.abs f # giga).
    destruct (Qle_bool (2 ^ 1024) (Py.nearest (Z.abs f # giga))) eqn:Hov; [discriminate |].
    change (1000000000 <? 0)%Z with false.
    intros H; injection H as <-.
    unfold Py.round. change (10 ^ Z.of_nat 9)%Z with 1000000000%Z.
    change (inject_Z 1000000000) with 1000000000%Q.
    destruct (Z.ltb_spec f 0) as [Hneg | Hpos]; cbn [Bool.eqb].
    + set (X := Py.nearest (Z.abs f # giga)) in *.
      set (k := Py.round_half_even (- X * 1000000000)).
      destruct (rhe_error (- X * 1000000000)) as [Hlo Hhi]. fold k in Hlo, Hhi.
      destruct (round_trip_core (Z.abs f) (- k) ltac:(lia)) as [Hk Hnear].
      * fold X. rewrite inject_Z_opp. lra.
      * fold X. rewrite inject_Z_opp. lra.
      * fold X in Hnear. unfold Py.double_of_ratio.
        destruct (Z.eqb_spec k 0) as [E | _]; [lia |].
        change (Py.magnitude k 1000000000) with (Z.abs k # giga).
        replace (Z.abs k) with (- k)%Z by lia.
        rewrite (overflow_compat _ _ Hnear Hov).
        change (1000000000 <? 0)%Z with false.
        destruct (Z.ltb_spec k 0) as [_ | Hge]; [| lia]. cbn [Bool.eqb].
        eexists. split; [reflexivity |]. rewrite Hnear. reflexivity.
    + replace (Z.abs f) with f in * by lia.
      set (X := Py.nearest (f # giga)) in *.
      set (k := Py.round_half_even (X * 1000000000)).
      destruct (rhe_error (X * 1000000000)) as [Hlo Hhi]. fold k in Hlo, Hhi.
      destruct (round_trip_core f k ltac:(lia)) as [Hk Hnear]; [exact Hlo | exact Hhi |].
      fold X in Hnear. unfold Py.double_of_ratio.
      destruct (Z.eqb_spec k 0) as [E | _]; [lia |].
      change (Py.magnitude k 1000000000) with (Z.abs k # giga).
      replace (Z.abs k) with k by lia.
      rewrite (overflow_compat _ _ Hnear Hov).
      change (1000000000 <? 0)%Z with false.
      destruct (Z.ltb_spec k 0) as [Hlt | _]; [lia |]. cbn [Bool.eqb].
      eexists. split; [reflexivity | exact Hnear].
Qed.

Local Close Scope Q_scope.

(** ** The float model on concrete values *)

(** [round(2675 / 1000, 2)] is the double 2.67, not the decimal 2.68 that
    rounding the exact quotient would give: the quotient is the double
    below 2.675. *)
Lemma round_binary_quotient :
  (exists x, (q <- Py.truediv 2675 1000 ;; Py.round q 2)%res = Ok x /\
             (x == 1503076375634903 # 562949953421312)%Q) /\
  Py.round_half_even ((2675 # 1000) * 100)%Q = 268.
Proof. split; [eexists; split |]; vm_compute; reflexivity. Qed.

(** [round(9 / 1800, 2)] is the double 0.01: the quotient is the double
    above 0.005. *)
Lemma round_small_quotient :
  (exists x, (q <- Py.truediv 9 1800 ;; Py.round q 2)%res = Ok x /\
             (x == 5764607523034235 # 576460752303423488)%Q) /\
  Py.round_half_even ((9 # 1800) * 100)%Q = 0.
Proof. split; [eexists; split |]; vm_compute; reflexivity. Qed.

(** [5000 / 1_000_000_000] is the double nearest to 0.000005. *)
Lemma double_lamports :
  exists x, Py.truediv 5000 1000000000 = Ok x /\
            (x == 5902958103587057 # 1180591620717411303424)%Q.
Proof. eexists; split; vm_compute; reflexivity. Qed.

(** The division raises [OverflowError] when the quotient is too large
    for a float. *)
Lemma truediv_overflow : Py.truediv (10 ^ 400) 1000000000 = Raise OverflowError.
Proof. vm_compute. reflexivity. Qed.

(** ** Fees *)

Lemma meta_field_inv (tx : json) (key : string) (default v : json) :
  meta_field tx key default = Ok v ->
  exists kv mkv,
    tx = JObj kv /\
    Py.or_ (match Py.lookup "meta" kv with Some m => m | None => JNull end) (JObj []) =
      JObj mkv /\
    match Py.lookup key mkv with Some x => x | None => default end = v.
Proof.
  unfold meta_field. intros H.
  apply rbind_ok in H as (meta & Hmeta & H).
  apply get_ok in Hmeta as (kv & -> & <-).
  apply get_ok in H as (mkv & Hor & H).
  exists kv, mkv. auto.
Qed.

Lemma meta_field_other (tx : json) (key key' : string) (default default' v : json) :
  meta_field tx key default = Ok v ->
  exists v', meta_field tx key' default' = Ok v'.
Proof.
  intros H. apply meta_field_inv in H as (kv & mkv & -> & Hor & _).
  unfold meta_field. cbn [Py.get rbind]. rewrite Hor. eexists; reflexivity.
Qed.

Lemma truediv_giga (f : Z) : Py.truediv f 1000000000 = Py.double_of_ratio f 1000000000.
Proof. reflexivity. Qed.

(** Rounding the quotient of an integer by 1e9 to nine decimals gives the
    quotient back. *)
Lemma round_lamports (f : Z) (quotient : Q) :
  Py.truediv f 1000000000 = Ok quotient ->
  exists rounded, Py.round quotient 9 = Ok rounded /\ (rounded == quotient)%Q.
Proof. rewrite truediv_giga. apply round_of_quotient. Qed.

Lemma tx_summary_fee (signature tx : json) (f : Z) (quotient : Q) :
  meta_field tx "fee" (JInt 0) = Ok (JInt f) ->
  Py.truediv f 1000000000 = Ok quotient ->
  exists rounded it,
    Py.round quotient 9 = Ok rounded /\ (rounded == quotient)%Q /\
    tx_summary signature tx = Ok it /\ fee it = rounded.
Proof.
  intros H Hq. destruct (round_lamports f quotient Hq) as (rounded & Hr & Heq).
  unfold tx_summary. rewrite H.
  apply meta_field_inv in H as (kv & mkv & -> & _ & _).
  cbn [rbind Py.truediv_by Py.as_int]. rewrite Hq. cbn [rbind]. rewrite Hr.
  cbn [rbind Py.get].
  destruct (program_label_returns (JObj kv)) as (label & ->).
  cbn [rbind]. exists rounded. eexists.
  split; [reflexivity | split; [exact Heq | split; reflexivity]].
Qed.

Lemma signature_result_fee (qs : string) (tx : json) (f : Z) (quotient : Q) :
  meta_field tx "fee" (JInt 0) = Ok (JInt f) ->
  Py.truediv f 1000000000 = Ok quotient ->
  exists slot ok,
    signature_result qs tx = Ok (SignatureResult qs slot quotient ok).
Proof.
  intros H Hq. unfold signature_result. rewrite H.
  destruct (meta_field_other tx "fee" "err" (JInt 0) JNull _ H) as (err & ->).
  apply meta_field_inv in H as (kv & mkv & -> & _ & _).
  cbn [rbind Py.truediv_by Py.as_int]. rewrite Hq. cbn [rbind Py.get].
  eexists _, _; reflexivity.
Qed.

(** A fee that fits 64 bits has a fee in SOL: the division does not
    overflow. *)
Lemma truediv_lamports (f : Z) :
  0 <= f < 2 ^ 64 -> exists quotient, Py.truediv f 1000000000 = Ok quotient.
Proof.
  intros [Hlo Hhi]. rewrite truediv_giga. unfold Py.double_of_ratio.
  destruct (f =? 0) eqn:E0; [eexists; reflexivity |].
  apply Z.eqb_neq in E0.
  change (Py.magnitude f 1000000000) with (Z.abs f # giga)%Q.
  replace (Z.abs f) with f by lia.
  set (t := (f # giga)%Q).
  destruct (nearest_error t) as (HX & Hlow & _).
  set (p := Py.ulp_exponent t) in *. set (u := (2 ^ p)%Q) in *.
  set (X := Py.nearest t) in *.
  assert (Ht0 : (0 < t)%Q) by (unfold t, Qlt; cbn; lia).
  assert (Ht : (t < 2 ^ 35)%Q).
  { unfold t, Qlt, giga. cbn [Qnum Qden]. change (2 ^ 64) with 18446744073709551616 in Hhi.
    change (Qnum (2 ^ 35)%Q) with 34359738368. change (Z.pos (Qden (2 ^ 35)%Q)) with 1.
    lia. }
  destruct (ilog2_spec t Ht0) as [Elo _].
  assert (He : Py.ilog2 t < 35).
  { destruct (Z.lt_ge_cases (Py.ilog2 t) 35) as [H | H]; [exact H | exfalso].
    pose proof (pow2_le 35 (Py.ilog2 t) H). lra. }
  assert (Hu : (u <= 1)%Q).
  { unfold u. change 1%Q with (2 ^ 0)%Q. apply pow2_le. unfold p, Py.ulp_exponent. lia. }
  assert (Hsmall : Qle_bool (2 ^ 1024) X = false).
  { destruct (Qle_bool (2 ^ 1024) X) eqn:E; [| reflexivity].
    apply Qle_bool_iff in E.
    pose proof (pow2_lt 36 1024 ltac:(lia)) as Hbig.
    assert (H36 : (2 ^ 36 == 2 * 2 ^ 35)%Q) by reflexivity.
    rewrite HX in E. set (Y := (inject_Z (Py.round_half_even (t / u)) * u)%Q) in *.
    pose proof (pow2_le 0 35 ltac:(lia)) as H1.
    change (2 ^ 0)%Q with 1%Q in H1. lra. }
  rewrite Hsmall. eexists; reflexivity.
Qed.

(** C9.  For a transaction whose meta carries the lamport fee [f] (0 when
    the field is missing): the float division [f / 1_000_000_000] gives a
    float when [f] fits 64 bits; and whenever it gives a float,
    [round(f / 1_000_000_000, 9)] is a float too, the item the feed
    appends carries it, the signature result of [search] carries a fee
    equal to it, and it is 0 for [f = 0]. *)
Theorem fee_in_sol (net : upstream) (tx : json) (f : Z) :
  meta_field tx "fee" (JInt 0) = Ok (JInt f) ->
  Py.truthy tx = true ->
  (0 <= f < 2 ^ 64 -> exists quotient, Py.truediv f 1000000000 = Ok quotient) /\
  (forall quotient,
     Py.truediv f 1000000000 = Ok quotient ->
     exists exposed,
       Py.round quotient 9 = Ok exposed /\
       (forall s signature rest items l,
          Py.get s "signature" JNull = Ok signature ->
          fst (rpc_call net "getTransaction" (Some [signature; tx_options]) l) = Ok tx ->
          exists it,
            fee it = exposed /\
            fetch_items net (s :: rest) items l =
            fetch_items net rest (items ++ [it]) (transaction_request signature :: l)) /\
       (forall q l,
          Py.isdigit (Py.strip q) = false ->
          signature_length (Py.strip q) = true ->
          fst (rpc_call net "getTransaction" (Some [JStr (Py.strip q); tx_options]) l) =
            Ok tx ->
          exists slot fee_sol ok,
            fst (search net q l) = Ok (SignatureResult (Py.strip q) slot fee_sol ok) /\
            (fee_sol == exposed)%Q) /\
       (f = 0 -> (exposed == 0)%Q)).
Proof.
  intros Hfee Htr. split; [apply truediv_lamports |]. intros quotient Hq.
  destruct (round_lamports f quotient Hq) as (exposed & Hr & Heq).
  exists exposed. split; [exact Hr |]. split; [| split].
  - intros s signature rest items l Hs Htx.
    destruct (tx_summary_fee signature tx f quotient Hfee Hq)
      as (rounded & it & Hr' & _ & Hit & Hfeeit).
    rewrite Hr in Hr'. injection Hr' as <-.
    exists it. split; [exact Hfeeit |].
    rewrite fetch_items_step, Hs, Htx, Htr, Hit. reflexivity.
  - intros q l Hnd Hlen Htx.
    destruct (signature_result_fee (Py.strip q) tx f quotient Hfee Hq)
      as (slot & ok & Hres).
    exists slot, quotient, ok. split.
    + rewrite (search_not_digits _ _ _ Hnd), (search_signature_long _ _ _ Hlen).
      rewrite Htx, Htr, Hres. reflexivity.
    + symmetry. exact Heq.
  - intros ->. rewrite Heq. cbn in Hq. injection Hq as <-. reflexivity.
Qed.

(** ** The properties at concrete inputs *)

Lemma search_decimal_is_slot_witness :
  let net := net_fixed (reply (JObj [("blockHeight", JInt 9);
                                      ("transactions", JArr [example_tx 5000; example_tx 0])]))
                       (reply JNull) (reply JNull) (reply JNull) in
  String.length (Py.strip long_numeral) = 85%nat /\
  fst (search net long_numeral []) =
  Ok (SlotResult
        1234567890123456789012345678901234567890123456789012345678901234567890123456789012345
        2) /\
  fst (search net " 123456 " []) = Ok (SlotResult 123456 2).
Proof.
  intros net. split; [reflexivity |]. split.
  - assert (Hlen : (String.length (Py.strip long_numeral) <= 4300)%nat)
      by (apply Nat.leb_le; reflexivity).
    pose proof (search_decimal_is_slot net long_numeral [] eq_refl Hlen)
      as (_ & _ & _ & _ & _ & _ & Hlist).
    exact (Hlist _ [example_tx 5000; example_tx 0] eq_refl eq_refl).
  - assert (Hlen : (String.length (Py.strip " 123456 ") <= 4300)%nat)
      by (apply Nat.leb_le; reflexivity).
    pose proof (search_decimal_is_slot net " 123456 " [] eq_refl Hlen)
      as (_ & _ & _ & _ & _ & _ & Hlist).
    exact (Hlist _ [example_tx 5000; example_tx 0] eq_refl eq_refl).
Defined.

Lemma search_failure_policy_witness :
  let net := net_fixed (reply JNull) (RequestFailed "timed out")
                       (reply_error (-32602) "Invalid param") (reply JNull) in
  search net signature_query [] =
  search_address net signature_query [transaction_request (JStr signature_query)] /\
  fst (search net signature_query []) = Raise (HTTPException 404 NotFoundOrInvalid).
Proof.
  intros net.
  assert (Hfail : http_failure
                    (fst (rpc_call net "getTransaction"
                            (Some [JStr (Py.strip signature_query); tx_options]) [])))
    by (eexists _, _; reflexivity).
  pose proof (search_failure_policy net signature_query [] eq_refl) as [Hfall H404].
  split.
  - exact (Hfall eq_refl Hfail).
  - apply (H404 [transaction_request (JStr signature_query)]).
    + right. repeat split. exact Hfail.
    + left. eexists _, _; reflexivity.
Defined.

Lemma search_absent_transaction_witness :
  let net := net_fixed (reply JNull) (reply JNull) (reply (JInt 5000))
                       (reply (JArr [listed "sigA"])) in
  search net signature_query [] =
  search_address net signature_query [transaction_request (JStr signature_query)] /\
  fst (search net signature_query []) =
  Ok (AddressResult signature_query (double 5000 1000000000) [JStr "sigA"]) /\
  kind (AddressResult signature_query (double 5000 1000000000) [JStr "sigA"]) = "address".
Proof.
  intros net.
  pose proof (search_absent_transaction net signature_query [] JNull
                eq_refl eq_refl eq_refl eq_refl) as [Heq Hkind].
  split; [exact Heq |]. split; [reflexivity |].
  apply Hkind. reflexivity.
Defined.

Lemma feed_fetched :
  fetched net_feed [listed "sigA"; listed "sigB"; listed "sigC"]
    [signatures_request system_program 5]
    [(JStr "sigA", example_tx 5000); (JStr "sigB", JNull); (JStr "sigC", example_tx 5000)]
    [transaction_request (JStr "sigC"); transaction_request (JStr "sigB");
     transaction_request (JStr "sigA"); signatures_request system_program 5].
Proof. repeat (econstructor; [reflexivity | reflexivity |]). constructor. Qed.

Lemma feed_summaries :
  Forall2 summary_of
    (present [(JStr "sigA", example_tx 5000); (JStr "sigB", JNull);
              (JStr "sigC", example_tx 5000)])
    [example_item "sigA"; example_item "sigC"].
Proof. repeat constructor; vm_compute; reflexivity. Qed.

Lemma recent_transactions_feed_witness :
  let items := [example_item "sigA"; example_item "sigC"] in
  recent_transactions net_feed 5 [] =
  (Ok items,
   [transaction_request (JStr "sigC"); transaction_request (JStr "sigB");
    transaction_request (JStr "sigA"); signatures_request system_program 5]) /\
  (List.length items <= Z.to_nat 5)%nat /\
  (exists pairs,
     fetched net_feed [listed "sigA"; listed "sigB"; listed "sigC"]
       [signatures_request system_program 5] pairs
       (snd (recent_transactions net_feed 5 [])) /\
     map sig items = map fst (present pairs)).
Proof.
  intros items.
  assert (Hlim : 1 <= 5 <= 20) by lia.
  pose proof (recent_transactions_feed net_feed 5 [] Hlim)
    as (_ & _ & Hlen & Hlist & Hruns & _).
  assert (Hrun : recent_transactions net_feed 5 [] =
                 (Ok items,
                  [transaction_request (JStr "sigC"); transaction_request (JStr "sigB");
                   transaction_request (JStr "sigA");
                   signatures_request system_program 5]))
    by exact (Hruns [listed "sigA"; listed "sigB"; listed "sigC"] _ items _ eq_refl
                feed_fetched feed_summaries).
  split; [exact Hrun |]. split.
  - apply Hlen. rewrite Hrun. reflexivity.
  - destruct (Hlist [listed "sigA"; listed "sigB"; listed "sigC"] items eq_refl)
      as (pairs & Hf & _ & Hsig); [rewrite Hrun; reflexivity |].
    exists pairs. split; assumption.
Defined.

Lemma fee_in_sol_witness :
  let net := net_fixed (reply JNull) (reply (example_tx 5000)) (reply JNull)
                       (reply JNull) in
  exists exposed,
    Py.round (double 5000 1000000000) 9 = Ok exposed /\
    (exists it,
       fee it = exposed /\
       fetch_items net [listed "sigA"] [] [] =
       fetch_items net [] [it] [transaction_request (JStr "sigA")]) /\
    (exists slot fee_sol ok,
       fst (search net signature_query []) =
       Ok (SignatureResult signature_query slot fee_sol ok) /\ (fee_sol == exposed)%Q).
Proof.
  intros net.
  destruct (fee_in_sol net (example_tx 5000) 5000 eq_refl eq_refl) as [_ Hfee].
  destruct (Hfee (double 5000 1000000000) eq_refl) as (exposed & Hr & Hfeed & Hsearch & _).
  exists exposed. split; [exact Hr |]. split.
  - exact (Hfeed (listed "sigA") (JStr "sigA") [] [] [] eq_refl eq_refl).
  - exact (Hsearch signature_query [] eq_refl eq_refl eq_refl).
Defined.

(** * Further properties of the handlers *)

(** ** Which exceptions the pure steps raise *)

Create HintDb no_http.

Lemma no_http_ok {A} (a : A) : no_http (Ok a).
Proof. intros e H. discriminate. Qed.

Lemma no_http_raise {A} (e : exn) : is_http e = false -> no_http (@Raise A e).
Proof. intros He e' H. injection H as <-. exact He. Qed.

Lemma no_http_rbind {A B} (r : result A) (k : A -> result B) :
  no_http r -> (forall a, no_http (k a)) -> no_http (rbind r k).
Proof.
  intros Hr Hk. destruct r as [a | e]; simpl; [apply Hk |].
  intros e' H. injection H as <-. now apply Hr.
Qed.

Ltac no_http_prim :=
  intros; unfold no_http;
  repeat match goal with
         | |- forall _, _ => intro
         | H : context [match ?x with _ => _ end] |- _ => destruct x
         | H : Ok _ = Raise _ |- _ => discriminate H
         | H : Raise _ = Raise _ |- _ => injection H as <-
         | |- is_http _ = false => reflexivity
         | H : ?f _ = Raise _ |- _ => progress (cbv beta delta [f] in H)
         | H : ?f _ _ = Raise _ |- _ => progress (cbv beta delta [f] in H)
         | H : ?f _ _ _ = Raise _ |- _ => progress (cbv beta delta [f] in H)
         end.

Lemma no_http_get (o : json) (key : string) (d : json) : no_http (Py.get o key d).
Proof. no_http_prim. Qed.

Lemma no_http_len (o : json) : no_http (Py.len o).
Proof. no_http_prim. Qed.

Lemma no_http_iter (o : json) : no_http (Py.iter o).
Proof. no_http_prim. Qed.

Lemma no_http_as_int (v : json) : no_http (Py.as_int v).
Proof. no_http_prim. Qed.

Lemma no_http_double_of_ratio (a b : Z) : no_http (Py.double_of_ratio a b).
Proof.
  unfold Py.double_of_ratio. destruct (a =? 0); [apply no_http_ok |].
  cbv zeta. destruct (Qle_bool _ _); [now apply no_http_raise | apply no_http_ok].
Qed.

Lemma no_http_truediv (a b : Z) : no_http (Py.truediv a b).
Proof.
  unfold Py.truediv. destruct (b =? 0);
    [now apply no_http_raise | apply no_http_double_of_ratio].
Qed.

Lemma no_http_round (x : Q) (ndigits : nat) : no_http (Py.round x ndigits).
Proof. apply no_http_double_of_ratio. Qed.

Lemma no_http_slice_to (o : json) (n : Z) : no_http (Py.slice_to o n).
Proof. no_http_prim. Qed.

Lemma no_http_int (s : string) : no_http (Py.int s).
Proof. no_http_prim. Qed.

Lemma no_http_index0 (o : json) : no_http (Py.index0 o).
Proof. no_http_prim. Qed.

#[local] Hint Resolve no_http_ok no_http_get no_http_len no_http_iter no_http_as_int
  no_http_truediv no_http_round no_http_slice_to no_http_int no_http_index0 : no_http.

Ltac no_http_steps :=
  repeat first
    [ apply no_http_rbind; [| intro]
    | apply no_http_ok
    | solve [auto with no_http]
    | match goal with
      | |- no_http (if ?b then _ else _) => destruct b
      | |- no_http (match ?x with _ => _ end) => destruct x
      end ].

Lemma no_http_sub (a b : json) : no_http (Py.sub a b).
Proof. unfold Py.sub. no_http_steps. Qed.

Lemma no_http_truediv_by (a : json) (b : Z) : no_http (Py.truediv_by a b).
Proof. unfold Py.truediv_by. no_http_steps. Qed.

Lemma no_http_sum (f : json -> result json) (l : list json) :
  (forall s, no_http (f s)) -> forall acc, no_http (Py.sum f l acc).
Proof.
  intros Hf. induction l as [| s rest IH]; intros acc; cbn [Py.sum].
  - apply no_http_ok.
  - apply no_http_rbind; [apply Hf | intro].
    apply no_http_rbind; [apply no_http_as_int | intro]. apply IH.
Qed.

Lemma no_http_program_label (tx : json) : no_http (_program_label tx).
Proof.
  unfold _program_label. destruct (program_label_body tx); apply no_http_ok.
Qed.

#[local] Hint Resolve no_http_sub no_http_truediv_by no_http_program_label : no_http.

Lemma no_http_meta_field (tx : json) (key : string) (d : json) :
  no_http (meta_field tx key d).
Proof. unfold meta_field. no_http_steps. Qed.

#[local] Hint Resolve no_http_meta_field : no_http.

Lemma no_http_tx_summary (signature tx : json) : no_http (tx_summary signature tx).
Proof. unfold tx_summary. no_http_steps. Qed.

Lemma no_http_signature_result (qs : string) (tx : json) :
  no_http (signature_result qs tx).
Proof. unfold signature_result. no_http_steps. Qed.

Lemma no_http_stats_tps (samples : json) : no_http (stats_tps samples).
Proof.
  unfold stats_tps. destruct (Py.truthy samples); [| apply no_http_ok].
  apply no_http_rbind; [apply no_http_iter | intro l].
  apply no_http_rbind; [apply no_http_sum; intro; apply no_http_get | intro].
  apply no_http_rbind; [apply no_http_sum; intro; apply no_http_get | intro].
  no_http_steps.
Qed.

Lemma no_http_recent_blocks (h1 h2 : json) : no_http (stats_recent_blocks h1 h2).
Proof. unfold stats_recent_blocks. no_http_steps. Qed.

Lemma no_http_signatures_of (l : list json) : no_http (signatures_of l).
Proof.
  induction l as [| s rest IH]; cbn [signatures_of]; [apply no_http_ok |].
  apply no_http_rbind; [apply no_http_get | intro].
  apply no_http_rbind; [exact IH | intro]. apply no_http_ok.
Qed.

(** ** The RPC client, beyond the contract *)

Lemma rpc_result_http (data : json) (status : Z) (d : detail) :
  rpc_result data = Raise (HTTPException status d) ->
  status = 502 /\ exists kv err, data = JObj kv /\ Py.lookup "error" kv = Some err /\
                                 d = RpcError err.
Proof.
  unfold rpc_result. intros H.
  destruct data as [| | | s | l | kv]; try discriminate.
  - cbn in H. destruct (Py.substring_of "error" s); discriminate.
  - cbn in H. destruct (existsb (Py.is_str "error") l); discriminate.
  - cbn in H. destruct (Py.lookup "error" kv) as [err |] eqn:E.
    + injection H as <- <-. split; [reflexivity |]. exists kv, err. auto.
    + discriminate.
Qed.

Lemma rpc_call_http_502 (net : upstream) (method : string)
      (params : option (list json)) (l : log) (status : Z) (d : detail) :
  fst (rpc_call net method params l) = Raise (HTTPException status d) -> status = 502.
Proof.
  unfold rpc_call.
  destruct (net l (payload method params)) as [cause | | data]; cbn [fst]; intros H.
  - now injection H as <- _.
  - discriminate.
  - now apply rpc_result_http in H as [-> _].
Qed.

(** A call returns a value exactly when the body is an object without an
    [error] key; the value is then the [result] field, null if missing. *)
Theorem rpc_call_returns_iff (net : upstream) (method : string)
        (params : option (list json)) (l : log) (v : json) :
  fst (rpc_call net method params l) = Ok v <->
  exists kv, net l (payload method params) = Body (JObj kv) /\
             Py.lookup "error" kv = None /\
             v = match Py.lookup "result" kv with Some x => x | None => JNull end.
Proof.
  unfold rpc_call. split.
  - destruct (net l (payload method params)) as [cause | | data]; cbn [fst];
      try discriminate.
    unfold rpc_result. intros H.
    destruct data as [| | | s | ls | kv]; try discriminate.
    + cbn in H. destruct (Py.substring_of "error" s); discriminate.
    + cbn in H. destruct (existsb (Py.is_str "error") ls); discriminate.
    + cbn in H. exists kv. destruct (Py.lookup "error" kv); [discriminate |].
      injection H as <-. auto.
  - intros (kv & -> & Herr & ->). cbn. unfold rpc_result. cbn. rewrite Herr.
    reflexivity.
Qed.

(** Every [HTTPException] a call raises has status 502, and it is raised
    only for a transport failure or a body object with an [error] key. *)
Theorem rpc_call_raises_502 (net : upstream) (method : string)
        (params : option (list json)) (l : log) (status : Z) (d : detail) :
  fst (rpc_call net method params l) = Raise (HTTPException status d) ->
  status = 502 /\
  ((exists cause, net l (payload method params) = RequestFailed cause /\
                  d = RpcRequestError cause) \/
   (exists kv err, net l (payload method params) = Body (JObj kv) /\
                   Py.lookup "error" kv = Some err /\ d = RpcError err)).
Proof.
  unfold rpc_call.
  destruct (net l (payload method params)) as [cause | | data]; cbn [fst]; intros H.
  - injection H as <- <-. split; [reflexivity |]. left. exists cause. auto.
  - discriminate.
  - apply rpc_result_http in H as (-> & kv & err & -> & Herr & ->).
    split; [reflexivity |]. right. exists kv, err. auto.
Qed.

Lemma rpc_call_raises_502_witness :
  502 = 502 /\
  ((exists cause, net_stats JNull JNull [] (payload "getBalance" None) = RequestFailed cause /\
                  RpcError (JObj [("code", JInt (-32601));
                                  ("message", JStr "Method not found")]) =
                  RpcRequestError cause) \/
   (exists kv err, net_stats JNull JNull [] (payload "getBalance" None) = Body (JObj kv) /\
                   Py.lookup "error" kv = Some err /\
                   RpcError (JObj [("code", JInt (-32601));
                                   ("message", JStr "Method not found")]) = RpcError err)).
Proof.
  exact (rpc_call_raises_502 (net_stats JNull JNull) "getBalance" None [] 502 _ eq_refl).
Defined.

(** A body that is JSON but not an object never yields a value or a 502:
    the call raises [TypeError] or [AttributeError]. *)
Theorem rpc_call_non_object_body (net : upstream) (method : string)
        (params : option (list json)) (l : log) (data : json) :
  net l (payload method params) = Body data ->
  is_object data = false ->
  fst (rpc_call net method params l) = Raise TypeError \/
  fst (rpc_call net method params l) = Raise AttributeError.
Proof.
  intros Hnet Hobj. rewrite (rpc_call_body _ _ _ _ _ Hnet). cbn [fst].
  unfold rpc_result.
  destruct data as [| | | s | ls | kv]; try discriminate; cbn; auto.
  - destruct (Py.substring_of "error" s); cbn; auto.
  - destruct (existsb (Py.is_str "error") ls); cbn; auto.
Qed.

Lemma rpc_call_non_object_body_witness :
  fst (rpc_call (fun _ _ => Body (JArr [JStr "error"])) "getSlot" None []) = Raise TypeError \/
  fst (rpc_call (fun _ _ => Body (JArr [JStr "error"])) "getSlot" None []) =
  Raise AttributeError.
Proof.
  exact (rpc_call_non_object_body (fun _ _ => Body (JArr [JStr "error"])) "getSlot" None []
           (JArr [JStr "error"]) eq_refl eq_refl).
Defined.

(** ** Which [HTTPException]s a handler raises *)

Lemma status_only_ret {A} (status : Z) (a : A) : http_status_only status (ret a).
Proof. intros l s d H. discriminate. Qed.

Lemma status_only_lift {A} (status : Z) (r : result A) :
  no_http r -> http_status_only status (lift r).
Proof.
  intros Hr l s d H. cbn in H. apply Hr in H. discriminate.
Qed.

Lemma status_only_rpc_call (net : upstream) (method : string)
      (params : option (list json)) :
  http_status_only 502 (rpc_call net method params).
Proof. intros l s d H. eapply rpc_call_http_502; eassumption. Qed.

Lemma status_only_bind {A B} (status : Z) (m : M A) (k : A -> M B) :
  http_status_only status m -> (forall a, http_status_only status (k a)) ->
  http_status_only status (bind m k).
Proof.
  intros Hm Hk l s d. unfold bind.
  specialize (Hm l s d). destruct (m l) as [[a | e] l1]; cbn [fst] in *.
  - apply Hk.
  - intros H. injection H as ->. now apply Hm.
Qed.

(** Whatever the body raises, an [HTTPException] that leaves the [try] was
    raised by the handler. *)
Lemma status_only_try {A} (status : Z) (m handler : M A) :
  http_status_only status handler ->
  http_status_only status (try_except_http m handler).
Proof.
  intros Hh l s d. unfold try_except_http.
  destruct (m l) as [[a | e] l1]; cbn [fst]; [discriminate |].
  destruct e; try discriminate. apply Hh.
Qed.

Ltac status_only_steps :=
  repeat first
    [ apply status_only_bind; [| intro]
    | apply status_only_rpc_call
    | apply status_only_ret
    | apply status_only_lift; solve [auto with no_http]
    | match goal with
      | |- http_status_only _ (if ?b then _ else _) => destruct b
      | |- http_status_only _ (match ?x with _ => _ end) => destruct x
      end ].

(** ** The stats aggregator, beyond [tps] *)

Lemma solana_stats_inv (net : upstream) (l l' : log) (r : stats) :
  solana_stats net l = (Ok r, l') ->
  let p1 := payload "getSlot" None in
  let p2 := payload "getRecentPerformanceSamples" (Some [JInt 30]) in
  let p3 := payload "getVoteAccounts" None in
  let p4 := payload "getBlockHeight" None in
  exists slot0 samples0 votes height1 height2 current delinquent n_current n_delinquent,
    fst (rpc_call net "getSlot" None l) = Ok slot0 /\
    fst (rpc_call net "getRecentPerformanceSamples" (Some [JInt 30]) (p1 :: l)) =
      Ok samples0 /\
    fst (rpc_call net "getVoteAccounts" None (p2 :: p1 :: l)) = Ok votes /\
    fst (rpc_call net "getBlockHeight" None (p3 :: p2 :: p1 :: l)) = Ok height1 /\
    fst (rpc_call net "getBlockHeight" None (p4 :: p3 :: p2 :: p1 :: l)) = Ok height2 /\
    l' = p4 :: p4 :: p3 :: p2 :: p1 :: l /\
    slot r = slot0 /\
    stats_tps (Py.or_ samples0 (JArr [])) = Ok (tps r) /\
    Py.get (Py.or_ votes (JObj [])) "current" (JArr []) = Ok current /\
    Py.get (Py.or_ votes (JObj [])) "delinquent" (JArr []) = Ok delinquent /\
    Py.len current = Ok n_current /\
    Py.len delinquent = Ok n_delinquent /\
    validators r = (n_current + n_delinquent)%nat /\
    stats_recent_blocks height1 height2 = Ok (recentBlocks r).
Proof.
  intros H p1 p2 p3 p4. unfold solana_stats in H.
  apply bind_ok in H as (slot0 & l1 & Hslot & H).
  apply rpc_call_ok in Hslot as [Hslot ->].
  apply bind_ok in H as (samples0 & l2 & Hsam & H).
  apply rpc_call_ok in Hsam as [Hsam ->].
  apply bind_ok in H as (t & l3 & Ht & H). apply lift_ok in Ht as [Ht ->].
  apply bind_ok in H as (votes & l4 & Hv & H).
  apply rpc_call_ok in Hv as [Hv ->].
  apply bind_ok in H as (current & l5 & Hc & H). apply lift_ok in Hc as [Hc ->].
  apply bind_ok in H as (delinquent & l6 & Hd & H). apply lift_ok in Hd as [Hd ->].
  apply bind_ok in H as (nc & l7 & Hnc & H). apply lift_ok in Hnc as [Hnc ->].
  apply bind_ok in H as (nd & l8 & Hnd & H). apply lift_ok in Hnd as [Hnd ->].
  apply bind_ok in H as (height1 & l9 & Hh1 & H).
  apply rpc_call_ok in Hh1 as [Hh1 ->].
  apply bind_ok in H as (height2 & l10 & Hh2 & H).
  apply rpc_call_ok in Hh2 as [Hh2 ->].
  apply bind_ok in H as (rb & l11 & Hrb & H). apply lift_ok in Hrb as [Hrb ->].
  unfold ret in H. injection H as <- <-.
  exists slot0, samples0, votes, height1, height2, current, delinquent, nc, nd.
  cbn [tps slot validators recentBlocks]. repeat split; assumption.
Qed.

(** When the stats handler returns, it has posted exactly five payloads,
    in the order [getSlot], [getRecentPerformanceSamples], [getVoteAccounts],
    [getBlockHeight], [getBlockHeight], and [slot] is the answer to the first
    one, unchanged. *)
Theorem stats_requests (net : upstream) (l l' : log) (r : stats) :
  solana_stats net l = (Ok r, l') ->
  l' = payload "getBlockHeight" None :: payload "getBlockHeight" None ::
       payload "getVoteAccounts" None ::
       payload "getRecentPerformanceSamples" (Some [JInt 30]) ::
       payload "getSlot" None :: l /\
  fst (rpc_call net "getSlot" None l) = Ok (slot r).
Proof.
  intros H. apply solana_stats_inv in H.
  destruct H as (slot0 & s0 & v & h1 & h2 & c & d & nc & nd & Hslot & _ & _ & _ & _ &
                 Hlog & Hs & _).
  split; [exact Hlog |]. now rewrite Hs.
Qed.

(** [validators] is the number of [current] plus the number of
    [delinquent] vote accounts; a missing list counts as empty, and so does
    a null or empty answer. *)
Theorem stats_validators (net : upstream) (l l' : log) (r : stats)
        (votes : json) (kv : list (string * json)) (current delinquent : list json) :
  solana_stats net l = (Ok r, l') ->
  fst (rpc_call net "getVoteAccounts" None
         (payload "getRecentPerformanceSamples" (Some [JInt 30]) ::
          payload "getSlot" None :: l)) = Ok votes ->
  Py.or_ votes (JObj []) = JObj kv ->
  list_field "current" kv = Some current ->
  list_field "delinquent" kv = Some delinquent ->
  validators r = (List.length current + List.length delinquent)%nat.
Proof.
  intros H Hv Hor Hc Hd. apply solana_stats_inv in H.
  destruct H as (slot0 & s0 & v & h1 & h2 & c & d & nc & nd & _ & _ & Hv' & _ & _ &
                 _ & _ & _ & Hgc & Hgd & Hnc & Hnd & Hval & _).
  rewrite Hv in Hv'. injection Hv' as <-. rewrite Hor in Hgc, Hgd.
  cbn [Py.get] in Hgc, Hgd. unfold list_field in Hc, Hd.
  destruct (Py.lookup "current" kv) as [[| | | | lc |] |]; try discriminate;
    injection Hc as <-; injection Hgc as <-;
    (destruct (Py.lookup "delinquent" kv) as [[| | | | ld |] |]; try discriminate;
     injection Hd as <-; injection Hgd as <-;
     cbn in Hnc, Hnd; injection Hnc as <-; injection Hnd as <-; exact Hval).
Qed.

(** Whenever the stats handler returns, [recentBlocks] is not negative. *)
Theorem stats_recent_blocks_nonneg (net : upstream) (l l' : log) (r : stats) :
  solana_stats net l = (Ok r, l') -> 0 <= recentBlocks r.
Proof.
  intros H. apply solana_stats_inv in H.
  destruct H as (slot0 & s0 & v & h1 & h2 & c & d & nc & nd & H).
  decompose [and] H. eapply recent_blocks_nonneg; eassumption.
Qed.

(** With integer block heights, [recentBlocks] is [max(0, height2 -
    height1)] as soon as [height2] is not 0 or [height1] is not negative; a
    zero [height2] is replaced by [height1], which gives 0. *)
Theorem stats_recent_blocks_value (net : upstream) (l l' : log) (r : stats) (a b : Z) :
  solana_stats net l = (Ok r, l') ->
  let before := payload "getVoteAccounts" None ::
                payload "getRecentPerformanceSamples" (Some [JInt 30]) ::
                payload "getSlot" None :: l in
  fst (rpc_call net "getBlockHeight" None before) = Ok (JInt a) ->
  fst (rpc_call net "getBlockHeight" None (payload "getBlockHeight" None :: before)) =
    Ok (JInt b) ->
  (b = 0 -> recentBlocks r = 0) /\
  (b <> 0 \/ 0 <= a -> recentBlocks r = Z.max 0 (b - a)).
Proof.
  intros H before Ha Hb. apply solana_stats_inv in H.
  destruct H as (slot0 & s0 & v & h1 & h2 & c & d & nc & nd & _ & _ & _ & Hh1 & Hh2 &
                 _ & _ & _ & _ & _ & _ & _ & _ & Hrb).
  fold before in Hh1, Hh2. rewrite Ha in Hh1. rewrite Hb in Hh2.
  injection Hh1 as <-. injection Hh2 as <-.
  pose proof (recent_blocks_heights (Some a) (Some b)) as Hcase.
  cbn [height_json] in Hcase. rewrite Hrb in Hcase.
  split.
  - intros ->. now injection Hcase as ->.
  - intros Hcond. destruct b as [| pb | pb].
    + injection Hcase as ->. destruct Hcond as [Hne | Hge]; [now elim Hne | lia].
    + now injection Hcase as ->.
    + now injection Hcase as ->.
Qed.

(** The stats handler raises no [HTTPException] other than the client's
    502: it never answers 404. *)
Theorem stats_raises_502 (net : upstream) (l : log) (status : Z) (d : detail) :
  fst (solana_stats net l) = Raise (HTTPException status d) -> status = 502.
Proof.
  revert l status d. change (http_status_only 502 (solana_stats net)).
  unfold solana_stats. status_only_steps.
  - apply status_only_lift, no_http_stats_tps.
  - apply status_only_lift, no_http_recent_blocks.
Qed.

Lemma round_half_even_nonneg (x : Q) : (0 <= x)%Q -> 0 <= Py.round_half_even x.
Proof.
  unfold Qle, Py.round_half_even. cbn [Qnum Qden]. intros H.
  assert (Hn : 0 <= Qnum x) by lia.
  assert (Hfl : 0 <= Qnum x / Z.pos (Qden x)) by (apply Z.div_pos; lia).
  destruct (2 * (Qnum x mod Z.pos (Qden x)) ?= Z.pos (Qden x)); try lia.
  destruct (Z.even (Qnum x / Z.pos (Qden x))); lia.
Qed.

Lemma nearest_nonneg (t : Q) : (0 < t)%Q -> (0 <= Py.nearest t)%Q.
Proof.
  intros Ht. destruct (nearest_error t) as (HX & _ & _). rewrite HX.
  pose proof (pow2_pos (Py.ulp_exponent t)) as Hu.
  apply Qmult_le_0_compat; [| now apply Qlt_le_weak].
  change 0%Q with (inject_Z 0). rewrite <- Zle_Qle.
  apply round_half_even_nonneg.
  apply Qle_shift_div_l; [exact Hu |]. rewrite Qmult_0_l. now apply Qlt_le_weak.
Qed.

Lemma double_of_ratio_nonneg (a b : Z) (x : Q) :
  0 <= a -> 0 < b -> Py.double_of_ratio a b = Ok x -> (0 <= x)%Q.
Proof.
  intros Ha Hb. unfold Py.double_of_ratio.
  destruct (Z.eqb_spec a 0) as [E | E]; [intros H; injection H as <-; apply Qle_refl |].
  cbv zeta. destruct (Qle_bool _ _); [discriminate |].
  replace (a <? 0) with false by (symmetry; apply Z.ltb_ge; lia).
  replace (b <? 0) with false by (symmetry; apply Z.ltb_ge; lia).
  cbn [Bool.eqb]. intros H. injection H as <-.
  apply nearest_nonneg. unfold Py.magnitude, Qlt. cbn [Qnum Qden]. lia.
Qed.

Lemma round_nonneg (x : Q) (ndigits : nat) (y : Q) :
  (0 <= x)%Q -> Py.round x ndigits = Ok y -> (0 <= y)%Q.
Proof.
  intros Hx. unfold Py.round.
  assert (Hs : 0 < 10 ^ Z.of_nat ndigits) by (apply Z.pow_pos_nonneg; lia).
  apply double_of_ratio_nonneg; [| exact Hs].
  apply round_half_even_nonneg.
  apply Qmult_le_0_compat; [exact Hx |].
  change 0%Q with (inject_Z 0). rewrite <- Zle_Qle. lia.
Qed.

Lemma totals_nonneg (ss : list PerformanceSample) :
  Forall (fun s => 0 <= numTransactions s /\ 0 <= samplePeriodSecs s) ss ->
  0 <= total_transactions ss /\ 0 <= total_seconds ss.
Proof.
  induction 1 as [| s rest [Hn Hp] _ [IHn IHp]]; cbn; [lia |].
  unfold total_transactions, total_seconds in *. lia.
Qed.

(** With samples whose counts are not negative, a [tps] that is present
    is not negative. *)
Theorem stats_tps_nonneg (net : upstream) (l l' : log) (r : stats)
        (js : list json) (ss : list PerformanceSample) (t : Q) :
  fst (rpc_call net "getRecentPerformanceSamples" (Some [JInt 30])
         (payload "getSlot" None :: l)) = Ok (JArr js) ->
  decode_samples js = Some ss ->
  Forall (fun s => 0 <= numTransactions s /\ 0 <= samplePeriodSecs s) ss ->
  solana_stats net l = (Ok r, l') ->
  tps r = Some t ->
  (0 <= t)%Q.
Proof.
  intros Hcall Hdec Hall Hstats Ht.
  pose proof (solana_stats_tps _ _ _ _ _ Hstats Hcall) as Htps.
  rewrite (stats_tps_decoded _ _ Hdec), Ht in Htps.
  destruct (totals_nonneg _ Hall) as [Hn Hp].
  destruct ss as [| s ss']; [discriminate |].
  destruct (Z.eqb_spec (total_seconds (s :: ss')) 0) as [E | E]; [discriminate |].
  change (total_transactions (s :: ss'))
    with (numTransactions s + total_transactions ss') in Hn, Htps.
  change (total_seconds (s :: ss')) with (samplePeriodSecs s + total_seconds ss') in Hp, E, Htps.
  apply rbind_ok in Htps as (q & Hq & Htps).
  apply rbind_ok in Htps as (rounded & Hr & Htps).
  injection Htps as <-.
  apply (round_nonneg q 2 rounded); [| exact Hr].
  unfold Py.truediv in Hq.
  destruct (samplePeriodSecs s + total_seconds ss' =? 0); [discriminate |].
  apply (double_of_ratio_nonneg _ _ q) in Hq; [exact Hq | lia | lia].
Qed.

Lemma scenario_run :
  solana_stats (net_heights (JInt 1000) (JInt 1003)) [] =
  (Ok scenario_stats, snd (solana_stats (net_heights (JInt 1000) (JInt 1003)) [])).
Proof. reflexivity. Qed.

Lemma stats_requests_witness :
  snd (solana_stats (net_heights (JInt 1000) (JInt 1003)) []) =
  [payload "getBlockHeight" None; payload "getBlockHeight" None;
   payload "getVoteAccounts" None;
   payload "getRecentPerformanceSamples" (Some [JInt 30]); payload "getSlot" None] /\
  fst (rpc_call (net_heights (JInt 1000) (JInt 1003)) "getSlot" None []) =
  Ok (JInt 250000000).
Proof.
  exact (stats_requests (net_heights (JInt 1000) (JInt 1003)) [] _ scenario_stats
           scenario_run).
Defined.

Lemma stats_validators_witness :
  validators scenario_stats =
  (List.length [JObj [("votePubkey", JStr "v1")]; JObj [("votePubkey", JStr "v2")]] +
   List.length [JObj [("votePubkey", JStr "v3")]])%nat.
Proof.
  exact (stats_validators (net_heights (JInt 1000) (JInt 1003)) [] _ scenario_stats
           _ _ _ _ scenario_run eq_refl eq_refl eq_refl eq_refl).
Defined.

Lemma stats_recent_blocks_nonneg_witness : 0 <= recentBlocks scenario_stats.
Proof.
  exact (stats_recent_blocks_nonneg (net_heights (JInt 1000) (JInt 1003)) [] _
           scenario_stats scenario_run).
Defined.

Lemma stats_recent_blocks_value_witness :
  recentBlocks scenario_stats = Z.max 0 (1003 - 1000).
Proof.
  refine (proj2 (stats_recent_blocks_value (net_heights (JInt 1000) (JInt 1003)) [] _
                   scenario_stats 1000 1003 scenario_run eq_refl eq_refl) _).
  left. discriminate.
Defined.

Lemma stats_raises_502_witness : 502 = 502.
Proof.
  exact (stats_raises_502 (fun _ _ => RequestFailed "timed out") [] 502
           (RpcRequestError "timed out") eq_refl).
Defined.

Lemma stats_tps_nonneg_witness : (0 <= double 167 100)%Q.
Proof.
  refine (stats_tps_nonneg (net_heights (JInt 1000) (JInt 1003)) [] _ scenario_stats
            [sample 100 60; sample 50 30]
            [{| numTransactions := 100; samplePeriodSecs := 60 |};
             {| numTransactions := 50; samplePeriodSecs := 30 |}]
            (double 167 100) eq_refl eq_refl _ scenario_run eq_refl).
  repeat constructor; cbn; lia.
Defined.

(** ** The labeler, case by case *)

Lemma first_instruction_path (kv ikv : list (string * json)) :
  first_instruction kv = Some ikv ->
  exists tkv mkv rest,
    Py.lookup "transaction" kv = Some (JObj tkv) /\
    Py.lookup "message" tkv = Some (JObj mkv) /\
    Py.lookup "instructions" mkv = Some (JArr (JObj ikv :: rest)).
Proof.
  unfold first_instruction. intros H.
  destruct (Py.lookup "transaction" kv) as [t |]; [| discriminate].
  destruct t as [| | | | | tkv]; try discriminate.
  destruct (Py.lookup "message" tkv) as [m |] eqn:Hm; [| discriminate].
  destruct m as [| | | | | mkv]; try discriminate.
  destruct (Py.lookup "instructions" mkv) as [ins |] eqn:Hins; [| discriminate].
  destruct ins as [| | | | ins |]; try discriminate.
  destruct ins as [| i0 rest]; [discriminate |].
  destruct i0 as [| | | | | i0]; try discriminate.
  injection H as ->. exists tkv, mkv, rest. repeat split; assumption.
Qed.

(** The labeler on a transaction whose first instruction is the object
    [ikv]: the program identifier when [programId or programIdIndex] is a
    string, the meta status otherwise. *)
Lemma label_with_instruction (kv ikv : list (string * json)) :
  first_instruction kv = Some ikv ->
  _program_label (JObj kv) =
  match Py.or_ (field_or_null "programId" ikv) (field_or_null "programIdIndex" ikv) with
  | JStr s => Ok s
  | _ =>
      match Py.get (JObj kv) "meta" (JObj []) with
      | Ok (JObj meta) =>
          Ok (if Py.is_none (field_or_null "err" meta) then "Success" else "Error")
      | _ => Ok "Transaction"
      end
  end.
Proof.
  intros H. apply first_instruction_path in H as (tkv & mkv & rest & Ht & Hm & Hi).
  unfold _program_label, program_label_body.
  cbn [Py.get rbind]. rewrite Ht. cbn [Py.get rbind]. rewrite Hm.
  cbn [Py.get rbind]. rewrite Hi. cbn [Py.truthy Py.index0 Py.get rbind].
  unfold Py.or_, field_or_null.
  destruct (Py.truthy (match Py.lookup "programId" ikv with
                       | Some v => v | None => JNull end)) eqn:Htr; cbn [rbind].
  - destruct (match Py.lookup "programId" ikv with Some v => v | None => JNull end);
      try reflexivity;
      destruct (Py.lookup "meta" kv) as [[| | | | | meta] |]; reflexivity.
  - destruct (match Py.lookup "programIdIndex" ikv with Some v => v | None => JNull end);
      try reflexivity;
      destruct (Py.lookup "meta" kv) as [[| | | | | meta] |]; reflexivity.
Qed.

(** A non-empty string under [programId] in the first instruction is the
    label, whatever [programIdIndex] and [meta] hold. *)
Theorem label_program_id (kv ikv : list (string * json)) (s : string) :
  first_instruction kv = Some ikv ->
  Py.lookup "programId" ikv = Some (JStr s) ->
  s <> "" ->
  _program_label (JObj kv) = Ok s.
Proof.
  intros Hi Hp Hs. rewrite (label_with_instruction _ _ Hi).
  unfold Py.or_, field_or_null. rewrite Hp. cbn [Py.truthy].
  destruct (String.eqb_spec s ""); [contradiction | reflexivity].
Qed.

(** When [programId] is missing or falsy, a string under [programIdIndex]
    is the label. *)
Theorem label_program_id_index (kv ikv : list (string * json)) (s : string) :
  first_instruction kv = Some ikv ->
  Py.truthy (field_or_null "programId" ikv) = false ->
  Py.lookup "programIdIndex" ikv = Some (JStr s) ->
  _program_label (JObj kv) = Ok s.
Proof.
  intros Hi Hp Hx. rewrite (label_with_instruction _ _ Hi).
  unfold Py.or_. rewrite Hp. unfold field_or_null at 1. rewrite Hx. reflexivity.
Qed.

(** A numeric [programIdIndex] is not resolved to an address: without a
    string program identifier the label is the status read from [meta],
    ["Error"] exactly when [meta] holds a non-null [err]. *)
Theorem label_status (kv ikv meta : list (string * json)) :
  first_instruction kv = Some ikv ->
  is_string (Py.or_ (field_or_null "programId" ikv)
                    (field_or_null "programIdIndex" ikv)) = false ->
  Py.lookup "meta" kv = Some (JObj meta) ->
  _program_label (JObj kv) =
  Ok (if Py.is_none (field_or_null "err" meta) then "Success" else "Error").
Proof.
  intros Hi Hp Hm. rewrite (label_with_instruction _ _ Hi).
  cbn [Py.get]. rewrite Hm.
  destruct (Py.or_ (field_or_null "programId" ikv) (field_or_null "programIdIndex" ikv));
    try reflexivity. discriminate.
Qed.

(** A [meta] that is present but not an object (null, for one) gives the
    fallback ["Transaction"] when no string program identifier is found,
    although the fee computation accepts such a [meta]. *)
Theorem label_meta_not_object (kv : list (string * json)) (meta : json) :
  no_instructions kv = true ->
  Py.lookup "meta" kv = Some meta ->
  is_object meta = false ->
  _program_label (JObj kv) = Ok "Transaction" /\
  (Py.truthy meta = false -> meta_field (JObj kv) "fee" (JInt 0) = Ok (JInt 0)).
Proof.
  intros Hni Hm Ho. split.
  - unfold no_instructions in Hni. unfold _program_label, program_label_body.
    cbn [Py.get rbind]. rewrite Hm.
    destruct (Py.lookup "transaction" kv) as [[| | | | | tkv] |]; try discriminate;
      cbn [Py.get rbind Py.truthy].
    + destruct (Py.lookup "message" tkv) as [[| | | | | mkv] |]; try discriminate;
        cbn [Py.get rbind Py.truthy].
      * destruct (Py.lookup "instructions" mkv); [discriminate |].
        cbn [Py.truthy rbind]. destruct meta; try reflexivity. discriminate.
      * destruct meta; try reflexivity. discriminate.
    + destruct meta; try reflexivity. discriminate.
  - intros Hf. unfold meta_field. cbn [Py.get rbind]. rewrite Hm.
    unfold Py.or_. rewrite Hf. reflexivity.
Qed.

Lemma label_program_id_witness :
  _program_label
    (JObj (tx_items [("programId", JStr "Vote111"); ("programIdIndex", JInt 3)]
             (JObj [("InstructionError", JInt 0)]))) = Ok "Vote111".
Proof.
  apply (label_program_id _ [("programId", JStr "Vote111"); ("programIdIndex", JInt 3)]);
    [reflexivity | reflexivity | discriminate].
Defined.

Lemma label_program_id_index_witness :
  _program_label
    (JObj (tx_items [("programId", JStr ""); ("programIdIndex", JStr "Stake11")] JNull)) =
  Ok "Stake11".
Proof.
  apply (label_program_id_index _ [("programId", JStr ""); ("programIdIndex", JStr "Stake11")]);
    reflexivity.
Defined.

Lemma label_status_witness :
  _program_label
    (JObj (tx_items [("programIdIndex", JInt 2)] (JObj [("InstructionError", JInt 0)]))) =
  Ok "Error".
Proof.
  exact (label_status
           (tx_items [("programIdIndex", JInt 2)] (JObj [("InstructionError", JInt 0)]))
           [("programIdIndex", JInt 2)]
           [("err", JObj [("InstructionError", JInt 0)]); ("fee", JInt 5000)]
           eq_refl eq_refl eq_refl).
Defined.

Lemma label_meta_not_object_witness :
  _program_label (JObj [("slot", JInt 1); ("meta", JNull)]) = Ok "Transaction" /\
  meta_field (JObj [("slot", JInt 1); ("meta", JNull)]) "fee" (JInt 0) = Ok (JInt 0).
Proof.
  destruct (label_meta_not_object [("slot", JInt 1); ("meta", JNull)] JNull
              eq_refl eq_refl eq_refl) as [Hlabel Hfee].
  split; [exact Hlabel | exact (Hfee eq_refl)].
Defined.

(** ** The feed, beyond the listing *)

Lemma status_only_fetch_items (net : upstream) (sigs : list json) :
  forall items, http_status_only 502 (fetch_items net sigs items).
Proof.
  induction sigs as [| s rest IH]; intros items; cbn [fetch_items].
  - apply status_only_ret.
  - apply status_only_bind; [apply status_only_lift, no_http_get | intro signature].
    apply status_only_bind; [apply status_only_rpc_call | intro tx].
    destruct (negb (Py.truthy tx)); [apply IH |].
    apply status_only_bind; [apply status_only_lift, no_http_tx_summary | intro it].
    apply IH.
Qed.

(** The feed raises no [HTTPException] other than the client's 502. *)
Theorem feed_raises_502 (net : upstream) (limit : Z) (l : log) (status : Z) (d : detail) :
  fst (recent_transactions net limit l) = Raise (HTTPException status d) ->
  status = 502.
Proof.
  revert l status d. change (http_status_only 502 (recent_transactions net limit)).
  unfold recent_transactions.
  apply status_only_bind; [apply status_only_rpc_call | intro sigs0].
  destruct (negb (Py.truthy (Py.or_ sigs0 (JArr [])))); [apply status_only_ret |].
  apply status_only_bind; [apply status_only_lift, no_http_slice_to | intro sliced].
  apply status_only_bind; [apply status_only_lift, no_http_iter | intro entries].
  apply status_only_fetch_items.
Qed.

Lemma feed_raises_502_witness : 502 = 502.
Proof.
  exact (feed_raises_502 (fun _ _ => RequestFailed "timed out") 5 [] 502
           (RpcRequestError "timed out") eq_refl).
Defined.

(** One failing detail request fails the whole feed: after a prefix of
    the listing was fetched and summarised, an exception from the next
    [getTransaction] leaves the loop as it is, the items built so far are
    dropped and the rest of the listing is not fetched. *)
Theorem feed_detail_failure (net : upstream) (fetched_entries : list json) (l l1 : log)
        (pairs : list (json * json)) :
  fetched net fetched_entries l pairs l1 ->
  forall (kept : list item) (s signature : json) (e : exn) (rest : list json)
         (items : list item),
    Forall2 summary_of (present pairs) kept ->
    Py.get s "signature" JNull = Ok signature ->
    fst (rpc_call net "getTransaction" (Some [signature; tx_options]) l1) = Raise e ->
    fetch_items net (fetched_entries ++ s :: rest) items l =
    (Raise e, transaction_request signature :: l1).
Proof.
  induction 1 as [l | s0 rest0 l l' signature0 tx0 pairs Hs0 Htx0 _ IH];
    intros kept s signature e rest items Hkept Hs Htx.
  - cbn [app]. rewrite fetch_items_step, Hs, Htx. reflexivity.
  - cbn [app]. rewrite fetch_items_step, Hs0, Htx0.
    unfold present in Hkept. cbn [filter snd] in Hkept.
    destruct (Py.truthy tx0).
    + inversion Hkept as [| p it ps its Hp Hrest]; subst.
      unfold summary_of in Hp. cbn [fst snd] in Hp. rewrite Hp.
      eapply IH; eassumption.
    + eapply IH; eassumption.
Qed.

Lemma feed_detail_failure_witness :
  fetch_items net_feed_broken [listed "sigA"; listed "sigB"; listed "sigC"] [] [] =
  (Raise (HTTPException 502 (RpcRequestError "timed out")),
   [transaction_request (JStr "sigB"); transaction_request (JStr "sigA")]).
Proof.
  refine (feed_detail_failure net_feed_broken [listed "sigA"] []
            [transaction_request (JStr "sigA")] [(JStr "sigA", example_tx 5000)]
            _ [example_item "sigA"] (listed "sigB") (JStr "sigB") _ [listed "sigC"] []
            _ eq_refl eq_refl).
  - exact (fetched_cons net_feed_broken (listed "sigA") [] [] _ (JStr "sigA")
             (example_tx 5000) [] eq_refl eq_refl (fetched_nil _ _)).
  - constructor; [reflexivity | constructor].
Defined.

(** When the listing is a list and the feed returns, it has posted the
    listing request and exactly [min(limit, number listed)] detail
    requests. *)
Theorem feed_request_count (net : upstream) (limit : Z) (l l' : log)
        (sigs : list json) (items : list item) :
  1 <= limit <= 20 ->
  fst (rpc_call net "getSignaturesForAddress"
         (Some [JStr system_program; JObj [("limit", JInt limit)]]) l) = Ok (JArr sigs) ->
  recent_transactions net limit l = (Ok items, l') ->
  List.length l' =
  (List.length l + 1 + Nat.min (Z.to_nat limit) (List.length sigs))%nat.
Proof.
  intros Hlim Hlist Hrun.
  rewrite recent_transactions_unfold, Hlist in Hrun. unfold Py.or_ in Hrun.
  destruct sigs as [| s rest].
  - cbn in Hrun. injection Hrun as _ <-. cbn [List.length]. rewrite Nat.min_0_r. lia.
  - cbn [Py.truthy Py.slice_to Py.iter] in Hrun. unfold Py.slice_list in Hrun.
    destruct (Z.ltb_spec limit 0) as [Hneg | _]; [lia |].
    apply fetch_items_ok in Hrun as (pairs & added & Hf & _ & _).
    apply fetched_length in Hf as (Hlen & _ & ->).
    rewrite length_app, length_rev, length_map, Hlen, length_firstn.
    cbn [List.length]. lia.
Qed.

Lemma feed_run_two :
  recent_transactions net_feed 2 [] =
  (Ok [example_item "sigA"], snd (recent_transactions net_feed 2 [])).
Proof. vm_compute. reflexivity. Qed.

Lemma feed_request_count_witness :
  List.length (snd (recent_transactions net_feed 2 [])) =
  (List.length (@nil json) + 1 + Nat.min (Z.to_nat 2) 3)%nat.
Proof.
  assert (Hlim : 1 <= 2 <= 20) by lia.
  exact (feed_request_count net_feed 2 [] (snd (recent_transactions net_feed 2 []))
           [listed "sigA"; listed "sigB"; listed "sigC"] [example_item "sigA"]
           Hlim eq_refl feed_run_two).
Defined.

Lemma meta_fee_default (kv : list (string * json)) :
  Py.truthy (field_or_null "meta" kv) = false \/
  (exists meta, Py.lookup "meta" kv = Some (JObj meta) /\ Py.lookup "fee" meta = None) ->
  meta_field (JObj kv) "fee" (JInt 0) = Ok (JInt 0).
Proof.
  unfold meta_field, field_or_null, Py.or_. cbn [Py.get rbind].
  intros [Hf | (meta & Hm & Hfee)].
  - rewrite Hf. reflexivity.
  - rewrite Hm. destruct (Py.truthy (JObj meta)); cbn [Py.get]; [| reflexivity].
    rewrite Hfee. reflexivity.
Qed.

(** A transaction without [meta], with a null or empty [meta], or with a
    [meta] that has no [fee], gets the fee 0, in the feed and in [search]. *)
Theorem fee_defaults_to_zero (signature : json) (qs : string)
        (kv : list (string * json)) :
  Py.truthy (field_or_null "meta" kv) = false \/
  (exists meta, Py.lookup "meta" kv = Some (JObj meta) /\ Py.lookup "fee" meta = None) ->
  (exists it, tx_summary signature (JObj kv) = Ok it /\ (fee it == 0)%Q) /\
  (exists slot fee_sol ok,
     signature_result qs (JObj kv) = Ok (SignatureResult qs slot fee_sol ok) /\
     (fee_sol == 0)%Q).
Proof.
  intros H. apply meta_fee_default in H. split.
  - destruct (tx_summary_fee signature _ 0 0%Q H eq_refl)
      as (rounded & it & _ & Heq & Hit & Hfee).
    exists it. split; [exact Hit |]. rewrite Hfee. exact Heq.
  - destruct (signature_result_fee qs _ 0 0%Q H eq_refl) as (slot & ok & Hres).
    exists slot, 0%Q, ok. split; [exact Hres | reflexivity].
Qed.

Lemma fee_defaults_to_zero_witness :
  (exists it, tx_summary (JStr "sigA") (JObj [("slot", JInt 9); ("meta", JNull)]) = Ok it /\
              (fee it == 0)%Q) /\
  (exists slot fee_sol ok,
     signature_result "sigA" (JObj [("slot", JInt 9); ("meta", JNull)]) =
     Ok (SignatureResult "sigA" slot fee_sol ok) /\ (fee_sol == 0)%Q).
Proof.
  apply (fee_defaults_to_zero (JStr "sigA") "sigA" [("slot", JInt 9); ("meta", JNull)]).
  left. reflexivity.
Defined.

(** ** The search classifier, beyond the failure policy *)

Lemma rstrip_cons (c : ascii) (rest : string) :
  Py.rstrip (String c rest) =
  match Py.rstrip rest with
  | EmptyString => if Py.is_space_char c then EmptyString else String c EmptyString
  | r => String c r
  end.
Proof. reflexivity. Qed.

Lemma rstrip_idempotent (s : string) : Py.rstrip (Py.rstrip s) = Py.rstrip s.
Proof.
  induction s as [| c rest IH]; [reflexivity |].
  rewrite rstrip_cons. destruct (Py.rstrip rest) as [| c' r'] eqn:E.
  - destruct (Py.is_space_char c) eqn:Hc; [reflexivity |].
    rewrite rstrip_cons. cbn [Py.rstrip]. rewrite Hc. reflexivity.
  - rewrite rstrip_cons, IH. reflexivity.
Qed.

Lemma lstrip_head (s : string) :
  match Py.lstrip s with
  | EmptyString => True
  | String c _ => Py.is_space_char c = false
  end.
Proof.
  induction s as [| c rest IH]; cbn [Py.lstrip]; [exact I |].
  destruct (Py.is_space_char c) eqn:Hc; [exact IH | exact Hc].
Qed.

Lemma rstrip_head (c : ascii) (rest : string) :
  Py.rstrip (String c rest) = EmptyString \/
  exists r, Py.rstrip (String c rest) = String c r.
Proof.
  cbn [Py.rstrip]. destruct (Py.rstrip rest) as [| c' r'].
  - destruct (Py.is_space_char c); [left; reflexivity | right; eexists; reflexivity].
  - right. eexists; reflexivity.
Qed.

Lemma strip_idempotent (s : string) : Py.strip (Py.strip s) = Py.strip s.
Proof.
  unfold Py.strip. pose proof (lstrip_head s) as Hhead.
  destruct (Py.lstrip s) as [| c rest]; [reflexivity |].
  destruct (rstrip_head c rest) as [-> | (r & Hr)]; [reflexivity |].
  rewrite Hr. cbn [Py.lstrip]. rewrite Hhead, <- Hr. apply rstrip_idempotent.
Qed.

(** Only the trimmed query matters: [search] on a query and on its
    trimmed form do the same. *)
Theorem search_trims (net : upstream) (q : string) (l : log) :
  search net q l = search net (Py.strip q) l.
Proof.
  unfold search. rewrite strip_idempotent. reflexivity.
Qed.

Lemma decimal_value_nonneg (s : string) :
  forall acc, Py.all_chars Py.is_decimal_char s = true -> 0 <= acc ->
              0 <= Py.decimal_value s acc.
Proof.
  induction s as [| c rest IH]; intros acc Hall Hacc;
    cbn [Py.decimal_value Py.all_chars] in *; [exact Hacc |].
  apply andb_true_iff in Hall as [Hc Hrest]. apply IH; [exact Hrest |].
  unfold Py.is_decimal_char in Hc. apply andb_true_iff in Hc as [Hlo _].
  apply N.leb_le in Hlo. lia.
Qed.

Lemma int_nonneg (s : string) (z : Z) : Py.int s = Ok z -> 0 <= z.
Proof.
  unfold Py.int.
  destruct (Py.nonempty s && Py.all_chars Py.is_decimal_char s) eqn:E; [| discriminate].
  destruct (String.length s <=? Py.int_max_str_digits)%nat; [| discriminate].
  intros H; injection H as <-. apply andb_true_iff in E as [_ E].
  apply decimal_value_nonneg; [exact E | lia].
Qed.

Lemma signature_result_shape (qs : string) (tx : json) (r : search_result) :
  signature_result qs tx = Ok r -> exists slot fee_sol ok, r = SignatureResult qs slot fee_sol ok.
Proof.
  unfold signature_result. intros H.
  repeat (apply rbind_ok in H as (? & _ & H)).
  injection H as <-. eexists _, _, _; reflexivity.
Qed.

Lemma search_address_shape (net : upstream) (qs : string) (l : log) (r : search_result) :
  fst (search_address net qs l) = Ok r ->
  exists balance signatures, r = AddressResult qs balance signatures.
Proof.
  unfold search_address, try_except_http.
  match goal with
  | |- context [match ?m l with _ => _ end] => destruct (m l) as [[r0 | e] l1] eqn:E
  end.
  - cbn [fst]. intros H; injection H as ->.
    repeat (apply bind_ok in E as (? & ? & _ & E)).
    unfold ret in E. injection E as <- _. eexists _, _; reflexivity.
  - destruct e; cbn; discriminate.
Qed.

(** What a returned result says about the query: a slot result comes only
    from a query [isdigit] accepts and its slot is not negative; a signature
    result only from a non-numeral of 80 to 100 characters; an address result
    only from a non-numeral; the signature and the address are the trimmed
    query. *)
Theorem search_classification (net : upstream) (q : string) (l : log)
        (r : search_result) :
  fst (search net q l) = Ok r ->
  match r with
  | SlotResult slot _ => Py.isdigit (Py.strip q) = true /\ 0 <= slot
  | SignatureResult signature _ _ _ =>
      Py.isdigit (Py.strip q) = false /\ signature_length (Py.strip q) = true /\
      signature = Py.strip q
  | AddressResult address _ _ => Py.isdigit (Py.strip q) = false /\ address = Py.strip q
  end.
Proof.
  destruct (Py.isdigit (Py.strip q)) eqn:Hd.
  - unfold search. rewrite Hd. intros H.
    destruct (bind _ _ l) as [res l'] eqn:E. cbn [fst] in H. subst res.
    apply bind_ok in E as (slot & l1 & Hint & E). apply lift_ok in Hint as [Hint ->].
    repeat (apply bind_ok in E as (? & ? & _ & E)).
    unfold ret in E. injection E as <- _. split; [reflexivity |].
    eapply int_nonneg; eassumption.
  - rewrite (search_not_digits _ _ _ Hd).
    destruct (signature_length (Py.strip q)) eqn:Hlen.
    + rewrite (search_signature_long _ _ _ Hlen).
      destruct (fst (rpc_call net "getTransaction"
                       (Some [JStr (Py.strip q); tx_options]) l)) as [tx | e].
      * destruct (Py.truthy tx).
        -- destruct (signature_result (Py.strip q) tx) as [r0 | e] eqn:Hres;
             cbn [rbind fst]; [| discriminate].
           intros H; injection H as <-.
           apply signature_result_shape in Hres as (slot & fee_sol & ok & ->). auto.
        -- intros H. apply search_address_shape in H as (b & sg & ->). auto.
      * destruct e; cbn [fst]; try discriminate.
        intros H. apply search_address_shape in H as (b & sg & ->). auto.
    + rewrite (search_signature_short _ _ _ Hlen).
      intros H. apply search_address_shape in H as (b & sg & ->). auto.
Qed.

Lemma search_classification_witness :
  Py.isdigit (Py.strip long_numeral) = true /\
  0 <= Py.decimal_value (Py.strip long_numeral) 0.
Proof.
  exact (search_classification
           (net_fixed (reply JNull) (reply JNull) (reply JNull) (reply JNull))
           long_numeral [] (SlotResult (Py.decimal_value (Py.strip long_numeral) 0) 0)
           eq_refl).
Defined.

Lemma status_only_raise {A} (status : Z) (d : detail) :
  http_status_only status (@raise A (HTTPException status d)).
Proof. intros l s d' H. cbn in H. now injection H as <- _. Qed.

Lemma status_only_search_address (net : upstream) (qs : string) :
  http_status_only 404 (search_address net qs).
Proof. unfold search_address. apply status_only_try, status_only_raise. Qed.

(** Every [HTTPException] that leaves [search] is the 404 of the address
    step: the failures of [getBlock] and [getTransaction] are swallowed, and
    no upstream failure reaches the caller as a 502. *)
Theorem search_raises_404 (net : upstream) (q : string) (l : log) (status : Z)
        (d : detail) :
  fst (search net q l) = Raise (HTTPException status d) -> status = 404.
Proof.
  revert l status d. change (http_status_only 404 (search net q)).
  unfold search. destruct (Py.isdigit (Py.strip q)).
  - apply status_only_bind; [apply status_only_lift, no_http_int | intro slot].
    apply status_only_bind; [apply status_only_try, status_only_ret | intro block].
    apply status_only_bind; [| intro; apply status_only_ret].
    apply status_only_lift. destruct (Py.truthy block); [| apply no_http_ok].
    apply no_http_rbind; [apply no_http_get | intro; apply no_http_len].
  - apply status_only_bind.
    + unfold search_signature.
      destruct ((80 <=? String.length (Py.strip q))%nat &&
                (String.length (Py.strip q) <=? 100)%nat); [| apply status_only_ret].
      apply status_only_bind; [apply status_only_try, status_only_ret | intro tx].
      destruct (Py.truthy tx); [| apply status_only_ret].
      apply status_only_bind; [| intro; apply status_only_ret].
      apply status_only_lift, no_http_signature_result.
    + intros [r |]; [apply status_only_ret | apply status_only_search_address].
Qed.

Lemma search_raises_404_witness : 404 = 404.
Proof.
  exact (search_raises_404 (fun _ _ => RequestFailed "timed out") signature_query []
           404 NotFoundOrInvalid eq_refl).
Defined.

Lemma search_address_log (net : upstream) (qs : string) (l : log) :
  snd (search_address net qs l) = balance_request qs :: l \/
  snd (search_address net qs l) = signatures_request qs 5 :: balance_request qs :: l.
Proof.
  unfold search_address, try_except_http, bind.
  pose proof (rpc_call_log net "getBalance" (Some [JStr qs]) l) as Hb.
  destruct (rpc_call net "getBalance" (Some [JStr qs]) l) as [[bal | e] l1];
    cbn [snd] in Hb; subst l1.
  - right.
    pose proof (rpc_call_log net "getSignaturesForAddress"
                  (Some [JStr qs; JObj [("limit", JInt 5)]]) (balance_request qs :: l))
      as Hs.
    unfold balance_request in *.
    destruct (rpc_call net "getSignaturesForAddress" _ _) as [[sigs | e] l1];
      cbn [snd] in Hs; subst l1.
    + unfold lift, ret.
      destruct (Py.truediv_by (Py.or_ bal (JInt 0)) 1000000000) as [b | e];
        [| destruct e; reflexivity].
      destruct (Py.iter (Py.or_ sigs (JArr []))) as [entries | e];
        [| destruct e; reflexivity].
      destruct (signatures_of entries) as [ss | e]; [reflexivity |].
      destruct e; reflexivity.
    + destruct e; reflexivity.
  - left. destruct e; reflexivity.
Qed.

(** One search posts at most three payloads: [getTransaction], [getBalance]
    and [getSignaturesForAddress] for a query of signature length whose
    transaction is not found. *)
Theorem search_request_bound (net : upstream) (q : string) (l : log) :
  exists new, snd (search net q l) = (new ++ l)%list /\ (List.length new <= 3)%nat.
Proof.
  destruct (Py.isdigit (Py.strip q)) eqn:Hd.
  - unfold search. rewrite Hd. unfold bind at 1, lift at 1.
    destruct (Py.int (Py.strip q)) as [slot |]; [| exists []; split; [reflexivity | simpl; lia]].
    unfold bind at 1. rewrite fetch_or_none.
    exists [block_request slot]. split; [| simpl; lia].
    destruct (fst (rpc_call net "getBlock" (Some [JInt slot; tx_options]) l)) as [block | e].
    + unfold bind, lift, ret. destruct (if Py.truthy block then _ else _); reflexivity.
    + destruct e; reflexivity.
  - rewrite (search_not_digits _ _ _ Hd).
    destruct (signature_length (Py.strip q)) eqn:Hlen.
    + rewrite (search_signature_long _ _ _ Hlen).
      assert (Haddr : exists new,
                 snd (search_address net (Py.strip q)
                        (transaction_request (JStr (Py.strip q)) :: l)) = (new ++ l)%list /\
                 (List.length new <= 3)%nat).
      { destruct (search_address_log net (Py.strip q)
                    (transaction_request (JStr (Py.strip q)) :: l)) as [-> | ->].
        - exists [balance_request (Py.strip q); transaction_request (JStr (Py.strip q))].
          split; [reflexivity | simpl; lia].
        - exists [signatures_request (Py.strip q) 5; balance_request (Py.strip q);
                  transaction_request (JStr (Py.strip q))].
          split; [reflexivity | simpl; lia]. }
      assert (Hone : forall res : result search_result,
                 exists new,
                   snd (res, transaction_request (JStr (Py.strip q)) :: l) = (new ++ l)%list /\
                   (List.length new <= 3)%nat).
      { intros res. exists [transaction_request (JStr (Py.strip q))].
        split; [reflexivity | simpl; lia]. }
      destruct (fst (rpc_call net "getTransaction"
                       (Some [JStr (Py.strip q); tx_options]) l)) as [tx | e].
      * destruct (Py.truthy tx); [| exact Haddr].
        destruct (signature_result (Py.strip q) tx); cbn [rbind]; apply Hone.
      * destruct e; try apply Hone. exact Haddr.
    + rewrite (search_signature_short _ _ _ Hlen).
      destruct (search_address_log net (Py.strip q) l) as [-> | ->].
      * exists [balance_request (Py.strip q)]. split; [reflexivity | simpl; lia].
      * exists [signatures_request (Py.strip q) 5; balance_request (Py.strip q)].
        split; [reflexivity | simpl; lia].
Qed.

Lemma search_address_run (net : upstream) (qs : string) (l : log) (bal sigs : json) :
  fst (rpc_call net "getBalance" (Some [JStr qs]) l) = Ok bal ->
  fst (rpc_call net "getSignaturesForAddress"
         (Some [JStr qs; JObj [("limit", JInt 5)]]) (balance_request qs :: l)) = Ok sigs ->
  search_address net qs l =
  ((balance <- Py.truediv_by (Py.or_ bal (JInt 0)) 1000000000 ;;
    entries <- Py.iter (Py.or_ sigs (JArr [])) ;;
    signatures <- signatures_of entries ;;
    Ok (AddressResult qs balance signatures))%res,
   signatures_request qs 5 :: balance_request qs :: l).
Proof.
  intros Hb Hs. unfold search_address, try_except_http, bind.
  pose proof (rpc_call_log net "getBalance" (Some [JStr qs]) l) as Hlb.
  destruct (rpc_call net "getBalance" (Some [JStr qs]) l) as [rb l1].
  cbn [fst snd] in Hb, Hlb. subst rb l1.
  pose proof (rpc_call_log net "getSignaturesForAddress"
                (Some [JStr qs; JObj [("limit", JInt 5)]]) (balance_request qs :: l))
    as Hls.
  unfold balance_request in *.
  destruct (rpc_call net "getSignaturesForAddress" _ _) as [rs l1].
  cbn [fst snd] in Hs, Hls. subst rs l1.
  unfold lift, ret.
  pose proof (no_http_truediv_by (Py.or_ bal (JInt 0)) 1000000000) as Hn1.
  destruct (Py.truediv_by (Py.or_ bal (JInt 0)) 1000000000) as [b | e]; cbn [rbind].
  - pose proof (no_http_iter (Py.or_ sigs (JArr []))) as Hn2.
    destruct (Py.iter (Py.or_ sigs (JArr []))) as [entries | e]; cbn [rbind].
    + pose proof (no_http_signatures_of entries) as Hn3.
      destruct (signatures_of entries) as [ss | e]; cbn [rbind]; [reflexivity |].
      specialize (Hn3 e eq_refl). destruct e; try discriminate; reflexivity.
    + specialize (Hn2 e eq_refl). destruct e; try discriminate; reflexivity.
  - specialize (Hn1 e eq_refl). destruct e; try discriminate; reflexivity.
Qed.

(** When [getBalance] answers with a non-empty JSON object and the
    signatures request does not fail, the address step raises [TypeError]:
    the division needs a number, and the exception is not turned into the
    404. *)
Theorem search_address_object_balance (net : upstream) (qs : string) (l : log)
        (kv : list (string * json)) (sigs : json) :
  fst (rpc_call net "getBalance" (Some [JStr qs]) l) = Ok (JObj kv) ->
  kv <> [] ->
  fst (rpc_call net "getSignaturesForAddress"
         (Some [JStr qs; JObj [("limit", JInt 5)]]) (balance_request qs :: l)) = Ok sigs ->
  fst (search_address net qs l) = Raise TypeError.
Proof.
  intros Hb Hkv Hs. rewrite (search_address_run _ _ _ _ _ Hb Hs).
  destruct kv; [contradiction | reflexivity].
Qed.

Lemma signatures_of_objects (entries : list (list (string * json))) :
  signatures_of (map JObj entries) = Ok (map (field_or_null "signature") entries).
Proof.
  induction entries as [| kv rest IH]; [reflexivity |].
  cbn [map signatures_of Py.get rbind]. rewrite IH. reflexivity.
Qed.

(** The address result: the balance is the float [lamports / 1e9] (the
    lamports are 0 for a null balance), and there is one signature per
    listed entry, in order, null for an entry that has none; a null listing
    gives no signature. *)
Theorem search_address_found (net : upstream) (qs : string) (l : log)
        (bal sigs : json) (lamports : Z) (balance : Q)
        (entries : list (list (string * json))) :
  fst (rpc_call net "getBalance" (Some [JStr qs]) l) = Ok bal ->
  (bal = JInt lamports \/ (bal = JNull /\ lamports = 0)) ->
  Py.truediv lamports 1000000000 = Ok balance ->
  fst (rpc_call net "getSignaturesForAddress"
         (Some [JStr qs; JObj [("limit", JInt 5)]]) (balance_request qs :: l)) = Ok sigs ->
  (sigs = JArr (map JObj entries) \/ (sigs = JNull /\ entries = [])) ->
  fst (search_address net qs l) =
  Ok (AddressResult qs balance (map (field_or_null "signature") entries)).
Proof.
  intros Hb Hbal Hq Hs Hsigs. rewrite (search_address_run _ _ _ _ _ Hb Hs). cbn [fst].
  assert (Hdiv : Py.truediv_by (Py.or_ bal (JInt 0)) 1000000000 =
                 Py.truediv lamports 1000000000).
  { destruct Hbal as [-> | [-> ->]]; [| reflexivity].
    unfold Py.or_. cbn [Py.truthy]. destruct (Z.eqb_spec lamports 0) as [-> | _];
      reflexivity. }
  rewrite Hdiv, Hq. cbn [rbind].
  assert (Hit : Py.iter (Py.or_ sigs (JArr [])) = Ok (map JObj entries)).
  { destruct Hsigs as [-> | [-> ->]]; [| reflexivity].
    unfold Py.or_. destruct entries; reflexivity. }
  rewrite Hit. cbn [rbind]. rewrite signatures_of_objects. reflexivity.
Qed.

(** A found signature: for a non-numeral of signature length whose
    transaction is a non-empty object with an object [meta] and an integer
    [fee], [search] returns after that one request; [slot] is copied (null
    if missing), the fee is the float [fee / 1e9], not rounded, and [ok]
    holds exactly when [meta] has no [err] or a null one. *)
Theorem search_signature_found (net : upstream) (q : string) (l : log)
        (kv meta : list (string * json)) (lamports : Z) (fee_sol : Q) :
  Py.isdigit (Py.strip q) = false ->
  signature_length (Py.strip q) = true ->
  fst (rpc_call net "getTransaction" (Some [JStr (Py.strip q); tx_options]) l) =
    Ok (JObj kv) ->
  Py.lookup "meta" kv = Some (JObj meta) ->
  Py.lookup "fee" meta = Some (JInt lamports) ->
  Py.truediv lamports 1000000000 = Ok fee_sol ->
  search net q l =
  (Ok (SignatureResult (Py.strip q) (field_or_null "slot" kv) fee_sol
         (Py.is_none (field_or_null "err" meta))),
   transaction_request (JStr (Py.strip q)) :: l).
Proof.
  intros Hd Hlen Htx Hm Hfee Hq.
  rewrite (search_not_digits _ _ _ Hd), (search_signature_long _ _ _ Hlen), Htx.
  assert (Htr : Py.truthy (JObj kv) = true) by (destruct kv; [discriminate | reflexivity]).
  assert (Hmt : Py.truthy (JObj meta) = true)
    by (destruct meta; [discriminate | reflexivity]).
  rewrite Htr. unfold signature_result, meta_field. cbn [Py.get rbind]. rewrite Hm.
  unfold Py.or_. rewrite Hmt. cbn [Py.get rbind]. rewrite Hfee.
  cbn [Py.truediv_by Py.as_int rbind]. rewrite Hq.
  unfold field_or_null. reflexivity.
Qed.

Lemma search_address_object_balance_witness :
  fst (search_address
         (net_fixed (reply JNull) (reply JNull)
            (reply (JObj [("context", JObj [("slot", JInt 250000001)]);
                          ("value", JInt 5000)]))
            (reply (JArr [listed "sigA"])))
         system_program []) = Raise TypeError.
Proof.
  apply (search_address_object_balance _ system_program []
           [("context", JObj [("slot", JInt 250000001)]); ("value", JInt 5000)]
           (JArr [listed "sigA"])); [reflexivity | discriminate | reflexivity].
Defined.

Lemma search_address_found_witness :
  fst (search_address
         (net_fixed (reply JNull) (reply JNull) (reply (JInt 5000))
            (reply (JArr [listed "sigA"; JObj [("slot", JInt 3)]])))
         system_program []) =
  Ok (AddressResult system_program (double 5000 1000000000) [JStr "sigA"; JNull]).
Proof.
  apply (search_address_found _ system_program [] (JInt 5000)
           (JArr [listed "sigA"; JObj [("slot", JInt 3)]]) 5000 (double 5000 1000000000)
           [[("signature", JStr "sigA"); ("slot", JInt 250000001)]; [("slot", JInt 3)]]);
    [reflexivity | left; reflexivity | reflexivity | reflexivity | left; reflexivity].
Defined.

Lemma search_signature_found_witness :
  search (net_fixed (reply JNull) (reply (example_tx 5000)) (reply JNull) (reply JNull))
    signature_query [] =
  (Ok (SignatureResult signature_query (JInt 250000001)
         (double 5000 1000000000) true),
   [transaction_request (JStr signature_query)]).
Proof.
  exact (search_signature_found
           (net_fixed (reply JNull) (reply (example_tx 5000)) (reply JNull) (reply JNull))
           signature_query []
           [("slot", JInt 250000001);
            ("meta", JObj [("err", JNull); ("fee", JInt 5000)]);
            ("transaction",
             JObj [("message",
                    JObj [("instructions", JArr [JObj [("programIdIndex", JInt 2)]])])])]
           [("err", JNull); ("fee", JInt 5000)] 5000 (double 5000 1000000000)
           eq_refl eq_refl eq_refl eq_refl eq_refl eq_refl).
Defined.

(** A query that [isdigit] accepts but that is not a decimal numeral (it
    holds a superscript digit) makes [int] raise [ValueError] before any
    request is posted. *)
Theorem search_non_decimal_digits (net : upstream) (q : string) (l : log) :
  Py.isdigit (Py.strip q) = true ->
  decimal_digits (Py.strip q) = false ->
  search net q l = (Raise ValueError, l).
Proof.
  intros Hd Hn. unfold search. rewrite Hd. unfold bind at 1, lift at 1.
  unfold Py.int. unfold decimal_digits in Hn. rewrite Hn. reflexivity.
Qed.

Lemma search_non_decimal_digits_witness :
  search (fun _ _ => NotJson) superscript_query [] = (Raise ValueError, []).
Proof.
  exact (search_non_decimal_digits (fun _ _ => NotJson) superscript_query []
           eq_refl eq_refl).
Defined.

(** A query of blanks only trims to the empty string, which is neither a
    numeral nor of signature length: [search] is the address step for the
    empty address. *)
Theorem search_blank (net : upstream) (q : string) (l : log) :
  Py.strip q = "" -> search net q l = search_address net "" l.
Proof.
  intros H. rewrite <- H. apply search_skips_signature; rewrite H; reflexivity.
Qed.

Lemma search_blank_witness :
  search (fun _ _ => RequestFailed "timed out") "    " [] =
  search_address (fun _ _ => RequestFailed "timed out") "" [].
Proof.
  exact (search_blank (fun _ _ => RequestFailed "timed out") "    " [] eq_refl).
Defined.
